(** * Reminders: store / notification lifecycle of [App.js]

    A shallow embedding of the reminder screen of [src/App.js]: the SQLite
    table behind [db], the notification scheduler behind [Notifications],
    the console, the React state of [Content], and the four asynchronous
    functions [initializeDatabase], [loadReminders], [addReminder],
    [deleteReminder] (with its helper [scheduleNotification]).

    Every [await] of the source is sequential, so an asynchronous function
    is a computation in a state-and-exception monad over one [World].
    A call that leaves the component (to the database or to the
    notification scheduler) may reject; which calls reject is decided by a
    fault plan carried in the world, so every theorem quantified over
    worlds covers every pattern of failures. *)

From Stdlib Require Import ZArith List String Ascii Lia Bool Sorted.
From Stdlib Require Import DecimalString.
From Stdlib Require DecimalPos DecimalZ.
Import ListNotations.

Local Open Scope string_scope.
Local Open Scope list_scope.
Local Open Scope Z_scope.

(** ** JavaScript values used by the component *)

Module JS.

(** [Number.prototype.toString] on an integer that a number holds
    exactly (see [isSafeInteger] below): decimal digits, with a leading
    minus sign for negative numbers. Past those integers the number of
    the program is a rounded one and prints other digits; nothing is
    stated about keys or tags there. *)
Definition toString (n : Z) : string :=
  NilZero.string_of_int (Z.to_int n).

(** Decimal rendering of [n] on exactly [width] digits, with leading
    zeros, for a number from 0 that fits. *)
Fixpoint pad (width : nat) (n : Z) : string :=
  match width with
  | O => EmptyString
  | S k =>
      (pad k (n / 10)
       ++ String (ascii_of_nat (48 + Z.to_nat (n mod 10))) EmptyString)%string
  end.

(** A [Date] object holds a time value in milliseconds since the epoch
    (within 8.64e15 of it either way), or is an Invalid Date. *)
Inductive Date :=
| TimeValue (ms : Z)
| InvalidDate.

Definition msPerDay : Z := 86400000.

(** Civil date (year, month, day) of a day number counted from
    1970-01-01, in the proleptic Gregorian calendar. *)
Definition civil_of_days (days : Z) : Z * Z * Z :=
  let z := days + 719468 in
  let era := z / 146097 in
  let doe := z - era * 146097 in
  let yoe := (doe - doe / 1460 + doe / 36524 - doe / 146096) / 365 in
  let doy := doe - (365 * yoe + yoe / 4 - yoe / 100) in
  let mp := (5 * doy + 2) / 153 in
  let d := doy - (153 * mp + 2) / 5 + 1 in
  let m := if mp <? 10 then mp + 3 else mp - 9 in
  let y := yoe + era * 400 + (if m <=? 2 then 1 else 0) in
  (y, m, d).

(** Year field of the ISO format: four digits from 0 to 9999, otherwise
    a sign and six digits (enough for every time value a [Date] holds). *)
Definition iso_year (y : Z) : string :=
  if (0 <=? y) && (y <=? 9999) then pad 4 y
  else if y <? 0 then ("-" ++ pad 6 (- y))%string
  else ("+" ++ pad 6 y)%string.

(** [YYYY-MM-DDTHH:mm:ss.sssZ] of a time value. *)
Definition iso_of_ms (ms : Z) : string :=
  let days := ms / msPerDay in
  let rest := ms mod msPerDay in
  let '(y, m, d) := civil_of_days days in
  (iso_year y ++ "-" ++ pad 2 m ++ "-" ++ pad 2 d ++ "T"
   ++ pad 2 (rest / 3600000) ++ ":"
   ++ pad 2 (rest / 60000 mod 60) ++ ":"
   ++ pad 2 (rest / 1000 mod 60) ++ "."
   ++ pad 3 (rest mod 1000) ++ "Z")%string.

(** [Date.prototype.toISOString]: the ISO string of a valid date;
    a RangeError ([None]) on an Invalid Date. *)
Definition toISOString (d : Date) : option string :=
  match d with
  | TimeValue ms => Some (iso_of_ms ms)
  | InvalidDate => None
  end.

(** Reading the format back. *)

Definition digit_of (c : ascii) : option Z :=
  let n := Z.of_nat (nat_of_ascii c) in
  if (48 <=? n) && (n <=? 57) then Some (n - 48) else None.

(** The number written by the first [width] characters of [s], decimal
    digits all of them, and what follows them. *)
Fixpoint read_digits (width : nat) (s : string) : option (Z * string) :=
  match width with
  | O => Some (0, s)
  | S k =>
      match read_digits k s with
      | Some (v, String c rest) =>
          match digit_of c with
          | Some d => Some (10 * v + d, rest)
          | None => None
          end
      | _ => None
      end
  end.

(** Four digits, or else a sign and six digits. *)
Definition read_year (s : string) : option (Z * string) :=
  match read_digits 4 s with
  | Some r => Some r
  | None =>
      match s with
      | String "+" rest => read_digits 6 rest
      | String "-" rest =>
          match read_digits 6 rest with
          | Some (v, rest') => Some (- v, rest')
          | None => None
          end
      | _ => None
      end
  end.

(** [width] digits followed by the character [stop]. *)
Definition read_field (width : nat) (stop : ascii) (s : string)
  : option (Z * string) :=
  match read_digits width s with
  | Some (v, String c rest) => if Ascii.eqb c stop then Some (v, rest) else None
  | _ => None
  end.

(** Day number, counted from 1970-01-01, of a civil date. *)
Definition days_of_civil (y m d : Z) : Z :=
  let y' := if m <=? 2 then y - 1 else y in
  let era := y' / 400 in
  let yoe := y' - era * 400 in
  let mp := if 2 <? m then m - 3 else m + 9 in
  let doy := (153 * mp + 2) / 5 + d - 1 in
  let doe := yoe * 365 + yoe / 4 - yoe / 100 + doy in
  era * 146097 + doe - 719468.

(** The time value that a string in the form [toISOString] writes stands
    for; [None] for a string that is not in that form. *)
Definition ms_of_iso (s : string) : option Z :=
  match read_year s with
  | Some (y, String "-" s1) =>
      match read_field 2 "-" s1 with
      | Some (m, s2) =>
          match read_field 2 "T" s2 with
          | Some (d, s3) =>
              match read_field 2 ":" s3 with
              | Some (h, s4) =>
                  match read_field 2 ":" s4 with
                  | Some (mi, s5) =>
                      match read_field 2 "." s5 with
                      | Some (sec, s6) =>
                          match read_field 3 "Z" s6 with
                          | Some (milli, EmptyString) =>
                              Some (days_of_civil y m d * msPerDay
                                    + h * 3600000 + mi * 60000
                                    + sec * 1000 + milli)
                          | _ => None
                          end
                      | None => None
                      end
                  | None => None
                  end
              | None => None
              end
          | None => None
          end
      | None => None
      end
  | _ => None
  end.

(** The time values a [Date] can hold. *)
Definition maxTimeValue : Z := 8640000000000000.

Definition is_time_value (ms : Z) : bool :=
  (- maxTimeValue <=? ms) && (ms <=? maxTimeValue).

(** The integers a number holds exactly ([Number.isSafeInteger]); ids
    past them reach the component rounded. *)
Definition MAX_SAFE_INTEGER : Z := 9007199254740991.

Definition isSafeInteger (n : Z) : bool :=
  (- MAX_SAFE_INTEGER <=? n) && (n <=? MAX_SAFE_INTEGER).

End JS.

(** ** Errors and the console *)

(** What a rejected promise or a thrown exception carries. *)
Inductive Error :=
| RangeError              (* [toISOString] on an Invalid Date *)
| NoSuchTable             (* SQLite: no such table: reminders *)
| DatabaseFull            (* SQLite: the largest rowid has been used *)
| HostFailure (code : nat). (* any other rejection by the database or
                               by the notification scheduler *)

(** One [console.log] call: a plain message, or a message followed by
    the caught error. *)
Inductive LogEntry :=
| Info (msg : string)
| Caught (msg : string) (error : Error).

(** ** The [reminders] table *)

Module Row.
(** A row of [reminders]: [id INTEGER PRIMARY KEY AUTOINCREMENT],
    [title TEXT], [message TEXT], [date TEXT]. *)
Record t := mk {
  id : Z;
  title : string;
  message : string;
  date : string
}.
End Row.

Module SQLite.

Inductive JournalMode := DefaultJournal | WAL.

(** The table and its [sqlite_sequence] entry: the largest rowid the
    table has ever held. *)
Record Table := mkTable {
  rows : list Row.t;
  seq : Z
}.

(** The file [reminders.db]: its journal mode and the [reminders] table
    when it has been created. *)
Record Db := mkDb {
  journal_mode : JournalMode;
  reminders : option Table
}.

Definition maxRowid : Z := 9223372036854775807.

Fixpoint largest_rowid (rs : list Row.t) : Z :=
  match rs with
  | [] => 0
  | r :: rs' => Z.max (Row.id r) (largest_rowid rs')
  end.

(** AUTOINCREMENT: one more than the largest rowid that has ever
    existed in the table. *)
Definition next_rowid (t : Table) : Z :=
  Z.max (seq t) (largest_rowid (rows t)) + 1.

(** [PRAGMA journal_mode = WAL; CREATE TABLE IF NOT EXISTS reminders
    (...)]. *)
Definition create_schema (d : Db) : Db :=
  {| journal_mode := WAL;
     reminders :=
       match reminders d with
       | Some t => Some t
       | None => Some {| rows := []; seq := 0 |}
       end |}.

(** [SELECT * FROM reminders]. *)
Definition select_all (d : Db) : Error + list Row.t :=
  match reminders d with
  | None => inl NoSuchTable
  | Some t => inr (rows t)
  end.

(** [INSERT INTO reminders (title, message, date) VALUES (?, ?, ?)];
    yields the rowid given to the new row ([lastInsertRowId]). *)
Definition insert (title message date : string) (d : Db)
  : Error + (Z * Db) :=
  match reminders d with
  | None => inl NoSuchTable
  | Some t =>
      let k := next_rowid t in
      if k <=? maxRowid then
        inr (k,
             {| journal_mode := journal_mode d;
                reminders :=
                  Some {| rows := rows t ++ [Row.mk k title message date];
                          seq := k |} |})
      else inl DatabaseFull
  end.

Definition keeps (id : Z) (r : Row.t) : bool := negb (Row.id r =? id).

(** [DELETE FROM reminders WHERE id = ?]; yields the number of rows
    removed ([changes]). A statement that matches no row removes
    none and is not an error. *)
Definition delete (id : Z) (d : Db) : Error + (nat * Db) :=
  match reminders d with
  | None => inl NoSuchTable
  | Some t =>
      let kept := filter (keeps id) (rows t) in
      inr ((List.length (rows t) - List.length kept)%nat,
           {| journal_mode := journal_mode d;
              reminders := Some {| rows := kept; seq := seq t |} |})
  end.

End SQLite.

(** ** The notification scheduler of the host *)

Module Notifications.

Record Content := mkContent {
  title : string;
  body : string;
  sound : bool;
  icon : string
}.

(** The argument of [scheduleNotificationAsync]; [identifier] is an
    optional key of the request object. *)
Record Request := mkRequest {
  identifier : option string;
  content : Content;
  trigger : JS.Date
}.

(** A notification waiting in the scheduler, under its tag. *)
Record Scheduled := mkScheduled {
  tag : string;
  what : Content;
  at_date : JS.Date
}.

(** The scheduler: the pending notifications, and the source of the
    identifiers it hands out to requests that bring none ([fresh] of
    the number of identifiers issued so far). *)
Record Host := mkHost {
  scheduled : list Scheduled;
  issued : nat;
  fresh : nat -> string
}.

Definition tagged (s : string) (n : Scheduled) : bool :=
  String.eqb (tag n) s.

Definition untagged (s : string) (n : Scheduled) : bool :=
  negb (tagged s n).

(** Modelled from the spec: the host's schedule-at-absolute-time with a
    cancellable tag (the scheduler is not part of [App.js]). The tag is
    the request's identifier when it has one, otherwise one the host
    issues; a pending notification under the same tag is replaced. *)
Definition schedule (req : Request) (h : Host) : string * Host :=
  match identifier req with
  | Some s =>
      (s, {| scheduled := filter (untagged s) (scheduled h)
                          ++ [mkScheduled s (content req) (trigger req)];
             issued := issued h;
             fresh := fresh h |})
  | None =>
      let s := fresh h (issued h) in
      (s, {| scheduled := filter (untagged s) (scheduled h)
                          ++ [mkScheduled s (content req) (trigger req)];
             issued := S (issued h);
             fresh := fresh h |})
  end.

(** Modelled from the spec: the host's cancel-by-tag (the scheduler is
    not part of [App.js]): every pending notification under the tag is
    dropped, and a tag that is not pending is not an error. *)
Definition cancel (s : string) (h : Host) : Host :=
  {| scheduled := filter (untagged s) (scheduled h);
     issued := issued h;
     fresh := fresh h |}.

End Notifications.

(** ** React state of [Content] *)

Module State.
Record t := mk {
  reminders : list Row.t;
  title : string;
  message : string;
  date : JS.Date
}.
End State.

(** ** Calls that may throw, and their record *)

Inductive Call :=
| ToISOString (d : JS.Date)                    (* date.toISOString() *)
| ExecSchema                                (* db.execAsync(CREATE ...) *)
| GetAll                                    (* db.getAllAsync(SELECT ...) *)
| RunInsert (title message date : string)   (* db.runAsync(INSERT ...) *)
| RunDelete (id : Z)                        (* db.runAsync(DELETE ...) *)
| ScheduleNotification (req : Notifications.Request)
| CancelScheduled (identifier : string).

Inductive Value :=
| VUnit
| VRows (rows : list Row.t)
| VRowid (lastInsertRowId : Z)
| VChanges (changes : nat)
| VIdentifier (identifier : string)
| VString (s : string).

Inductive Settled :=
| Resolved (v : Value)
| Rejected (e : Error).

Definition Event : Type := Call * Settled.

(** ** The world an asynchronous function runs in *)

Record World := mkWorld {
  db : SQLite.Db;
  host : Notifications.Host;
  console : list LogEntry;
  ui : State.t;
  faults : list (option Error);  (* [Some e]: the next host call rejects
                                    with [e]; nothing planned: it runs *)
  trace : list Event             (* calls so far, oldest first *)
}.

Definition set_db (d : SQLite.Db) (w : World) : World :=
  mkWorld d (host w) (console w) (ui w) (faults w) (trace w).

Definition set_host (h : Notifications.Host) (w : World) : World :=
  mkWorld (db w) h (console w) (ui w) (faults w) (trace w).

Definition set_ui (u : State.t) (w : World) : World :=
  mkWorld (db w) (host w) (console w) u (faults w) (trace w).

Definition set_faults (f : list (option Error)) (w : World) : World :=
  mkWorld (db w) (host w) (console w) (ui w) f (trace w).

Definition record (ev : Event) (w : World) : World :=
  mkWorld (db w) (host w) (console w) (ui w) (faults w) (trace w ++ [ev]).

Definition planned_fault (w : World) : option Error :=
  match faults w with
  | f :: _ => f
  | [] => None
  end.

Definition consume_fault (w : World) : World :=
  set_faults (tl (faults w)) w.

(** ** Asynchronous functions *)

Inductive Outcome (A : Type) :=
| Done (a : A)
| Thrown (e : Error).

Arguments Done {A} a.
Arguments Thrown {A} e.

Definition Async (A : Type) : Type := World -> Outcome A * World.

Definition ret {A} (a : A) : Async A := fun w => (Done a, w).

Definition throw {A} (e : Error) : Async A := fun w => (Thrown e, w).

Definition bind {A B} (m : Async A) (k : A -> Async B) : Async B :=
  fun w =>
    match m w with
    | (Done a, w') => k a w'
    | (Thrown e, w') => (Thrown e, w')
    end.

(** [try { body } catch (error) { handler }]. *)
Definition try_catch {A} (body : Async A) (handler : Error -> Async A)
  : Async A :=
  fun w =>
    match body w with
    | (Done a, w') => (Done a, w')
    | (Thrown e, w') => handler e w'
    end.

Declare Scope async_scope.
Delimit Scope async_scope with async.
Bind Scope async_scope with Async.

Notation "x <- m ;; k" := (bind m (fun x => k))
  (at level 61, m at next level, right associativity) : async_scope.
Notation "m ;; k" := (bind m (fun _ => k))
  (at level 61, right associativity) : async_scope.

Local Open Scope async_scope.

(** The world after running [m] from [w], and what [m] returned. *)
Definition after {A} (m : Async A) (w : World) : World := snd (m w).
Definition result {A} (m : Async A) (w : World) : Outcome A := fst (m w).

(** A host call: it rejects when the fault plan says so, and otherwise
    does what [sem] says, which may itself be a rejection. A rejected
    call leaves the world as it was, apart from the record of the call. *)
Definition hostCall {A} (c : Call) (inj : A -> Value)
    (sem : World -> Error + (A * World)) : Async A :=
  fun w =>
    let w0 := consume_fault w in
    match planned_fault w with
    | Some e => (Thrown e, record (c, Rejected e) w0)
    | None =>
        match sem w0 with
        | inl e => (Thrown e, record (c, Rejected e) w0)
        | inr (a, w1) => (Done a, record (c, Resolved (inj a)) w1)
        end
    end.

Module Db.

Definition execAsync_schema : Async unit :=
  hostCall ExecSchema (fun _ => VUnit)
    (fun w => inr (tt, set_db (SQLite.create_schema (db w)) w)).

Definition getAllAsync : Async (list Row.t) :=
  hostCall GetAll VRows
    (fun w =>
       match SQLite.select_all (db w) with
       | inl e => inl e
       | inr rs => inr (rs, w)
       end).

Definition runAsync_insert (title message date : string) : Async Z :=
  hostCall (RunInsert title message date) VRowid
    (fun w =>
       match SQLite.insert title message date (db w) with
       | inl e => inl e
       | inr (k, d) => inr (k, set_db d w)
       end).

Definition runAsync_delete (id : Z) : Async nat :=
  hostCall (RunDelete id) VChanges
    (fun w =>
       match SQLite.delete id (db w) with
       | inl e => inl e
       | inr (n, d) => inr (n, set_db d w)
       end).

End Db.

Definition scheduleNotificationAsync (req : Notifications.Request)
  : Async string :=
  hostCall (ScheduleNotification req) VIdentifier
    (fun w =>
       let (s, h) := Notifications.schedule req (host w) in
       inr (s, set_host h w)).

Definition cancelScheduledNotificationAsync (identifier : string)
  : Async unit :=
  hostCall (CancelScheduled identifier) (fun _ => VUnit)
    (fun w => inr (tt, set_host (Notifications.cancel identifier (host w)) w)).

Definition console_log (entry : LogEntry) : Async unit :=
  fun w =>
    (Done tt,
     mkWorld (db w) (host w) (console w ++ [entry]) (ui w) (faults w)
       (trace w)).

Definition setReminders (allRows : list Row.t) : Async unit :=
  fun w =>
    (Done tt,
     set_ui (State.mk allRows (State.title (ui w)) (State.message (ui w))
               (State.date (ui w))) w).

Definition setTitle (s : string) : Async unit :=
  fun w =>
    (Done tt,
     set_ui (State.mk (State.reminders (ui w)) s (State.message (ui w))
               (State.date (ui w))) w).

Definition setMessage (s : string) : Async unit :=
  fun w =>
    (Done tt,
     set_ui (State.mk (State.reminders (ui w)) (State.title (ui w)) s
               (State.date (ui w))) w).

Definition setDate (d : JS.Date) : Async unit :=
  fun w =>
    (Done tt,
     set_ui (State.mk (State.reminders (ui w)) (State.title (ui w))
               (State.message (ui w)) d) w).

(** Reading a state variable captured by a closure of [Content]. *)
Definition useState {A} (field : State.t -> A) : Async A :=
  fun w => (Done (field (ui w)), w).

(** [date.toISOString()] as an expression that may throw; it does not
    leave the component, so the fault plan has no say in it. *)
Definition toISOString (d : JS.Date) : Async string :=
  fun w =>
    match JS.toISOString d with
    | Some s => (Done s, record (ToISOString d, Resolved (VString s)) w)
    | None => (Thrown RangeError, record (ToISOString d, Rejected RangeError) w)
    end.

(** ** The functions of [App.js] *)

Definition initializeDatabase : Async unit :=
  try_catch
    (Db.execAsync_schema ;;
     console_log (Info "Database initialized"))
    (fun error =>
       console_log (Caught "Error while initializing database: " error)).

Definition loadReminders : Async unit :=
  try_catch
    (allRows <- Db.getAllAsync ;;
     setReminders allRows)
    (fun error =>
       console_log (Caught "Error while loading reminders: " error)).

Definition scheduleNotification (title message : string) (date : JS.Date)
  : Async unit :=
  try_catch
    (_ <- scheduleNotificationAsync
            {| Notifications.identifier := None;
               Notifications.content :=
                 {| Notifications.title := title;
                    Notifications.body := message;
                    Notifications.sound := true;
                    Notifications.icon := "./assets/icon.png" |};
               Notifications.trigger := date |} ;;
     ret tt)
    (fun error =>
       console_log (Caught "Error scheduling notification: " error)).

Definition addReminder : Async unit :=
  try_catch
    (title <- useState State.title ;;
     message <- useState State.message ;;
     date <- useState State.date ;;
     iso <- toISOString date ;;
     _ <- Db.runAsync_insert title message iso ;;
     scheduleNotification title message date ;;
     loadReminders)
    (fun error =>
       console_log (Caught "Error while adding reminder: " error)).

Definition deleteReminder (id : Z) : Async unit :=
  try_catch
    (_ <- Db.runAsync_delete id ;;
     cancelScheduledNotificationAsync (JS.toString id) ;;
     loadReminders)
    (fun error =>
       console_log (Caught "Error while deleting reminder: " error)).

(** ** Observations *)

(** The calls made by [m] from [w], oldest first, and the console lines
    it printed. *)
Definition events {A} (m : Async A) (w : World) : list Event :=
  skipn (List.length (trace w)) (trace (after m w)).

Definition printed {A} (m : Async A) (w : World) : list LogEntry :=
  skipn (List.length (console w)) (console (after m w)).

(** The errors among console lines, and among settled calls. *)
Fixpoint caught_errors (l : list LogEntry) : list Error :=
  match l with
  | [] => []
  | Info _ :: l' => caught_errors l'
  | Caught _ e :: l' => e :: caught_errors l'
  end.

Fixpoint rejections (evs : list Event) : list Error :=
  match evs with
  | [] => []
  | (_, Rejected e) :: evs' => e :: rejections evs'
  | (_, Resolved _) :: evs' => rejections evs'
  end.

(** The rowids the store has handed out, in the order of the inserts. *)
Fixpoint assigned_ids (evs : list Event) : list Z :=
  match evs with
  | [] => []
  | (RunInsert _ _ _, Resolved (VRowid k)) :: evs' => k :: assigned_ids evs'
  | _ :: evs' => assigned_ids evs'
  end.

Definition is_notification_call (c : Call) : bool :=
  match c with
  | ScheduleNotification _ | CancelScheduled _ => true
  | _ => false
  end.

Definition is_refresh_call (c : Call) : bool :=
  match c with
  | GetAll => true
  | _ => false
  end.

(** The rows of the table, none when the table does not exist. *)
Definition stored (w : World) : list Row.t :=
  match SQLite.reminders (db w) with
  | Some t => SQLite.rows t
  | None => []
  end.

Definition pending (w : World) : list Notifications.Scheduled :=
  Notifications.scheduled (host w).

Definition listed (w : World) : list Row.t := State.reminders (ui w).

(** ** What the user does on the screen *)

Inductive Action :=
| Add (title message : string) (date : JS.Date) (* fill the form, press add *)
| Delete (id : Z)                               (* press the bin of a row *)
| Start.                                        (* the provider's onInit *)

Definition perform (a : Action) : Async unit :=
  match a with
  | Add t m d => setTitle t ;; setMessage m ;; setDate d ;; addReminder
  | Delete id => deleteReminder id
  | Start => initializeDatabase
  end.

Fixpoint run (acts : list Action) (w : World) : World :=
  match acts with
  | [] => w
  | a :: acts' => run acts' (after (perform a) w)
  end.

Fixpoint repeat_init (n : nat) (w : World) : World :=
  match n with
  | O => w
  | S k => repeat_init k (after initializeDatabase w)
  end.

(** ** Concrete worlds *)

(** An identifier source in the shape of the host's UUIDs. *)
Definition uuid (n : nat) : string :=
  ("00000000-0000-4000-8000-" ++ JS.pad 12 (Z.of_nat n))%string.

(** A new install: no database table, nothing scheduled, empty form. *)
Definition install (plan : list (option Error)) : World :=
  {| db := {| SQLite.journal_mode := SQLite.DefaultJournal;
              SQLite.reminders := None |};
     host := {| Notifications.scheduled := [];
                Notifications.issued := 0;
                Notifications.fresh := uuid |};
     console := [];
     ui := State.mk [] "" "" (JS.TimeValue 0);
     faults := plan;
     trace := [] |}.

(** The application once started, with a plan for the calls to come. *)
Definition started (plan : list (option Error)) : World :=
  set_faults plan (after initializeDatabase (install [])).

(** 2100-01-01T00:00:00.000Z. *)
Definition year2100 : JS.Date := JS.TimeValue 4102444800000.

(** ** Order of calls *)

Definition calls {A} (m : Async A) (w : World) : list Call :=
  map fst (events m w).

Definition is_cancel_call (c : Call) : bool :=
  match c with
  | CancelScheduled _ => true
  | _ => false
  end.

Definition is_removal_call (c : Call) : bool :=
  match c with
  | RunDelete _ => true
  | _ => false
  end.

Definition is_arming_call (c : Call) : bool :=
  match c with
  | ScheduleNotification _ => true
  | _ => false
  end.

(** Some call satisfying [p] is made before some call satisfying [q]. *)
Fixpoint precedes (p q : Call -> bool) (cs : list Call) : bool :=
  match cs with
  | [] => false
  | c :: cs' => (p c && existsb q cs') || precedes p q cs'
  end.

(** The delete flow read as "cancel the notification, then remove the
    record". *)
Definition cancel_before_removal (id : Z) (w : World) : Prop :=
  precedes is_cancel_call is_removal_call (calls (deleteReminder id) w) = true.

(** The three ways the delete flow can go: the removal is rejected; the
    removal is done and the cancellation is rejected; both are done and
    the list is read again. *)
Definition removal_then_cancel (id : Z) (evs : list Event) : Prop :=
  (exists e, evs = [(RunDelete id, Rejected e)])
  \/ (exists n e,
        evs = [(RunDelete id, Resolved (VChanges n));
               (CancelScheduled (JS.toString id), Rejected e)])
  \/ (exists n r,
        evs = [(RunDelete id, Resolved (VChanges n));
               (CancelScheduled (JS.toString id), Resolved VUnit);
               (GetAll, r)]).

(** ** Failure containment *)

(** Nothing went to the notification scheduler, the list was not read
    again, and the React state and the scheduler are as they were. *)
Definition flow_stopped {A} (m : Async A) (w : World) : Prop :=
  existsb is_notification_call (calls m w) = false
  /\ existsb is_refresh_call (calls m w) = false
  /\ ui (after m w) = ui w
  /\ host (after m w) = host w.

(** Every rejected call is the last call made. *)
Fixpoint stopped_at_rejection (evs : list Event) : bool :=
  match evs with
  | [] => true
  | (_, Rejected _) :: post =>
      match post with
      | [] => true
      | _ :: _ => false
      end
  | (_, Resolved _) :: post => stopped_at_rejection post
  end.

(** Every rejected call is the last call made, except that a rejected
    arming call is followed by the refresh and nothing more. *)
Fixpoint stopped_unless_arming (evs : list Event) : bool :=
  match evs with
  | [] => true
  | (c, Rejected _) :: post =>
      if is_arming_call c then
        match post with
        | [(GetAll, _)] => true
        | _ => false
        end
      else
        match post with
        | [] => true
        | _ :: _ => false
        end
  | (_, Resolved _) :: post => stopped_unless_arming post
  end.

(** Some call other than the arming call was rejected. *)
Definition own_step_failed (evs : list Event) : bool :=
  existsb
    (fun ev =>
       match ev with
       | (c, Rejected _) => negb (is_arming_call c)
       | (_, Resolved _) => false
       end)
    evs.

(** The propagation policy read as "log, swallow, and skip what
    remains": the function returns normally, the console shows exactly
    the errors raised, a rejected call is the last call, and after any
    error the list on screen is what it was. *)
Definition logged_and_stopped (m : Async unit) (w : World) : Prop :=
  result m w = Done tt
  /\ caught_errors (printed m w) = rejections (events m w)
  /\ stopped_at_rejection (events m w) = true
  /\ (rejections (events m w) <> [] -> listed (after m w) = listed w).

(** The policy of the code: as above, but a rejected arming call is
    caught inside [scheduleNotification], so the flow goes on to the
    refresh; the list on screen is what it was after the failure of any
    other call. *)
Definition logged_and_contained (m : Async unit) (w : World) : Prop :=
  result m w = Done tt
  /\ caught_errors (printed m w) = rejections (events m w)
  /\ stopped_unless_arming (events m w) = true
  /\ (own_step_failed (events m w) = true -> listed (after m w) = listed w).

(** ** Runs and the ids they hand out *)

(** The calls made by a run of actions from [w]. *)
Definition history (acts : list Action) (w : World) : list Event :=
  skipn (List.length (trace w)) (trace (run acts w)).

(** The [sqlite_sequence] entry of the table, 0 while there is none. *)
Definition seq_of (w : World) : Z :=
  match SQLite.reminders (db w) with
  | Some t => SQLite.seq t
  | None => 0
  end.

(** The sequence entry is at least every stored rowid, as it is in a
    table that only ever received inserts without an explicit id. *)
Definition store_wf (w : World) : Prop :=
  forall r, In r (stored w) -> Row.id r <= seq_of w.

Fixpoint count_adds (acts : list Action) : nat :=
  match acts with
  | [] => O
  | Add _ _ _ :: acts' => S (count_adds acts')
  | _ :: acts' => count_adds acts'
  end.

(** The form holds a valid date. *)
Definition valid_form (a : Action) : bool :=
  match a with
  | Add _ _ (JS.TimeValue _) => true
  | Add _ _ JS.InvalidDate => false
  | _ => true
  end.

(** ** The rest of the screen *)

(** [keyExtractor] of the list: [item.id.toString()], for a row whose id
    is an integer that a number holds exactly. *)
Definition keyExtractor (item : Row.t) : string := JS.toString (Row.id item).

(** The listener of taps on a delivered notification: it reads [title]
    and [body] off the content and shows them in an alert. *)
Definition responseListener (n : Notifications.Scheduled) : string * string :=
  (Notifications.title (Notifications.what n),
   Notifications.body (Notifications.what n)).

(** The three fields of the form. *)
Definition form (w : World) : string * string * JS.Date :=
  (State.title (ui w), State.message (ui w), State.date (ui w)).

(** [Content] with its two picker flags. *)
Record Screen := mkScreen {
  world : World;
  showDatePicker : bool;
  showTimePicker : bool
}.

(** [handleDateChange (event, selectedDate)]: [selectedDate || date];
    a [Date] object is truthy, [undefined] is not. *)
Definition handleDateChange (selectedDate : option JS.Date) (s : Screen)
  : Screen :=
  let currentDate :=
    match selectedDate with
    | Some d => d
    | None => State.date (ui (world s))
    end in
  {| world := after (setDate currentDate) (world s);
     showDatePicker := false;
     showTimePicker := showTimePicker s |}.

Definition handleTimeChange (selectedTime : option JS.Date) (s : Screen)
  : Screen :=
  let currentTime :=
    match selectedTime with
    | Some d => d
    | None => State.date (ui (world s))
    end in
  {| world := after (setDate currentTime) (world s);
     showDatePicker := showDatePicker s;
     showTimePicker := false |}.

(** What can happen on the rendered screen. A picker reports a change
    only while it is rendered; a bin exists for each listed row. *)
Inductive UiEvent :=
| ChangeTitle (text : string)
| ChangeMessage (text : string)
| PressChooseDate
| PressChooseTime
| DateChange (selectedDate : option JS.Date)
| TimeChange (selectedTime : option JS.Date)
| PressAdd
| PressBin (index : nat).

Definition on_world (m : Async unit) (s : Screen) : Screen :=
  {| world := after m (world s);
     showDatePicker := showDatePicker s;
     showTimePicker := showTimePicker s |}.

Definition react (ev : UiEvent) (s : Screen) : Screen :=
  match ev with
  | ChangeTitle text => on_world (setTitle text) s
  | ChangeMessage text => on_world (setMessage text) s
  | PressChooseDate => mkScreen (world s) true (showTimePicker s)
  | PressChooseTime => mkScreen (world s) (showDatePicker s) true
  | DateChange selectedDate =>
      if showDatePicker s then handleDateChange selectedDate s else s
  | TimeChange selectedTime =>
      if showTimePicker s then handleTimeChange selectedTime s else s
  | PressAdd => on_world addReminder s
  | PressBin index =>
      match nth_error (listed (world s)) index with
      | Some reminder => on_world (deleteReminder (Row.id reminder)) s
      | None => s
      end
  end.

Fixpoint session (evs : list UiEvent) (s : Screen) : Screen :=
  match evs with
  | [] => s
  | ev :: evs' => session evs' (react ev s)
  end.

(** The picker hands over a valid date, or nothing. *)
Definition picks_valid (ev : UiEvent) : bool :=
  match ev with
  | DateChange (Some JS.InvalidDate) | TimeChange (Some JS.InvalidDate) =>
      false
  | _ => true
  end.

Definition valid_date (d : JS.Date) : bool :=
  match d with
  | JS.TimeValue _ => true
  | JS.InvalidDate => false
  end.

Definition date_formatting_failed (ev : Event) : bool :=
  match ev with
  | (ToISOString _, Rejected _) => true
  | _ => false
  end.

(** ** Console lines *)

(** The message under which a rejected call is printed: the one of the
    function whose [try] block the call sits in; [own] is the message of
    the flow itself. *)
Definition catch_message (own : string) (c : Call) : string :=
  match c with
  | ScheduleNotification _ => "Error scheduling notification: "
  | GetAll => "Error while loading reminders: "
  | _ => own
  end.

Fixpoint error_lines (own : string) (evs : list Event) : list LogEntry :=
  match evs with
  | [] => []
  | (c, Rejected e) :: evs' =>
      Caught (catch_message own c) e :: error_lines own evs'
  | (_, Resolved _) :: evs' => error_lines own evs'
  end.

Definition is_store_write (c : Call) : bool :=
  match c with
  | ExecSchema | RunInsert _ _ _ | RunDelete _ => true
  | _ => false
  end.

Definition is_insert_call (c : Call) : bool :=
  match c with
  | RunInsert _ _ _ => true
  | _ => false
  end.

Definition deletes_of (acts : list Action) : list Z :=
  flat_map (fun a => match a with Delete id => [id] | _ => [] end) acts.

Definition only_deletes (acts : list Action) : bool :=
  forallb (fun a => match a with Delete _ => true | _ => false end) acts.

(** ** Invariants of the screen *)

(** No two stored rows share an id, and no two listed rows do. *)
Definition distinct_ids (w : World) : Prop :=
  NoDup (map Row.id (stored w)) /\ NoDup (map Row.id (listed w)).

(** The sequence entry is at least every stored id and every id on
    screen. *)
Definition ids_below_seq (w : World) : Prop :=
  store_wf w /\ (forall r, In r (listed w) -> Row.id r <= seq_of w).

(** Every id in the store and on screen is at least 1, as the ids the
    table gives are. *)
Definition ids_from_one (w : World) : Prop :=
  (forall r, In r (stored w) -> 1 <= Row.id r)
  /\ (forall r, In r (listed w) -> 1 <= Row.id r).

(** * Proofs *)

(** ** The JavaScript functions on known values *)

Example toString_7 : JS.toString 7 = "7".
Proof. reflexivity. Qed.

Example toString_120 : JS.toString 120 = "120".
Proof. reflexivity. Qed.

Example iso_epoch :
  JS.toISOString (JS.TimeValue 0) = Some "1970-01-01T00:00:00.000Z".
Proof. reflexivity. Qed.

Example iso_2023 :
  JS.toISOString (JS.TimeValue 1700000000123)
  = Some "2023-11-14T22:13:20.123Z".
Proof. vm_compute. reflexivity. Qed.

Example iso_before_epoch :
  JS.toISOString (JS.TimeValue (-1)) = Some "1969-12-31T23:59:59.999Z".
Proof. vm_compute. reflexivity. Qed.

Example iso_year_10000 :
  JS.toISOString (JS.TimeValue 253402300800000)
  = Some "+010000-01-01T00:00:00.000Z".
Proof. vm_compute. reflexivity. Qed.

Example iso_year_minus_1 :
  JS.toISOString (JS.TimeValue (-62198755200000))
  = Some "-000001-01-01T00:00:00.000Z".
Proof. vm_compute. reflexivity. Qed.

Example iso_leap_day :
  JS.toISOString (JS.TimeValue 1709210096789)
  = Some "2024-02-29T12:34:56.789Z".
Proof. vm_compute. reflexivity. Qed.

Example iso_2100 :
  JS.toISOString (JS.TimeValue 4102444800000)
  = Some "2100-01-01T00:00:00.000Z".
Proof. vm_compute. reflexivity. Qed.

(** ** Reading the date back *)

Example ms_of_iso_2023 :
  JS.ms_of_iso "2023-11-14T22:13:20.123Z" = Some 1700000000123.
Proof. vm_compute. reflexivity. Qed.

Example ms_of_iso_first_time_value :
  JS.iso_of_ms (- JS.maxTimeValue) = "-271821-04-20T00:00:00.000Z"
  /\ JS.ms_of_iso "-271821-04-20T00:00:00.000Z" = Some (- JS.maxTimeValue).
Proof. vm_compute. split; reflexivity. Qed.

Example ms_of_iso_other_form : JS.ms_of_iso "14 Nov 2023" = None.
Proof. vm_compute. reflexivity. Qed.

Lemma string_app_assoc (a b c : string) :
  ((a ++ b) ++ c = a ++ (b ++ c))%string.
Proof. induction a as [|x a IH]; simpl; [reflexivity | now rewrite IH]. Qed.

Lemma digit_of_digit (r : Z) :
  0 <= r < 10 ->
  JS.digit_of (ascii_of_nat (48 + Z.to_nat r)) = Some r.
Proof.
  intros H.
  assert (E : r = 0 \/ r = 1 \/ r = 2 \/ r = 3 \/ r = 4 \/ r = 5 \/ r = 6
              \/ r = 7 \/ r = 8 \/ r = 9) by lia.
  repeat (destruct E as [-> | E]; [reflexivity|]). subst r. reflexivity.
Qed.

Lemma pad_succ (k : nat) (n : Z) :
  JS.pad (S k) n
  = (JS.pad k (n / 10)
     ++ String (ascii_of_nat (48 + Z.to_nat (n mod 10))) EmptyString)%string.
Proof. reflexivity. Qed.

Lemma read_digits_succ (k : nat) (s : string) :
  JS.read_digits (S k) s
  = match JS.read_digits k s with
    | Some (v, String c rest) =>
        match JS.digit_of c with
        | Some d => Some (10 * v + d, rest)
        | None => None
        end
    | _ => None
    end.
Proof. reflexivity. Qed.

Lemma read_digits_pad (width : nat) :
  forall (n : Z) (rest : string),
    0 <= n < 10 ^ Z.of_nat width ->
    JS.read_digits width (JS.pad width n ++ rest)%string = Some (n, rest).
Proof.
  induction width as [|k IH]; intros n rest Hn.
  - simpl in *. f_equal. f_equal. lia.
  - rewrite Nat2Z.inj_succ, Z.pow_succ_r in Hn by lia.
    rewrite pad_succ. set (c := ascii_of_nat _).
    rewrite string_app_assoc.
    change (String c "" ++ rest)%string with (String c rest).
    rewrite read_digits_succ.
    rewrite IH
      by (split; [apply Z.div_pos; lia | apply Z.div_lt_upper_bound; lia]).
    cbv beta iota. subst c.
    rewrite digit_of_digit by (apply Z.mod_pos_bound; lia).
    f_equal. f_equal. pose proof (Z.div_mod n 10). lia.
Qed.

Lemma read_digits_nondigit (k : nat) (c : ascii) (rest : string) :
  JS.digit_of c = None -> JS.read_digits (S k) (String c rest) = None.
Proof.
  intros H. induction k as [|k IH].
  - rewrite read_digits_succ. cbv beta iota delta [JS.read_digits].
    rewrite H. reflexivity.
  - rewrite read_digits_succ, IH. reflexivity.
Qed.

Lemma read_field_pad (width : nat) (stop : ascii) (n : Z) (rest : string) :
  0 <= n < 10 ^ Z.of_nat width ->
  JS.read_field width stop (JS.pad width n ++ String stop rest)%string
  = Some (n, rest).
Proof.
  intros Hn. unfold JS.read_field. rewrite read_digits_pad by exact Hn.
  rewrite Ascii.eqb_refl. reflexivity.
Qed.

Lemma read_year_iso_year (y : Z) (rest : string) :
  - 1000000 < y < 1000000 ->
  JS.read_year (JS.iso_year y ++ rest)%string = Some (y, rest).
Proof.
  intros Hy. unfold JS.iso_year, JS.read_year.
  destruct ((0 <=? y) && (y <=? 9999)) eqn:E4.
  - apply andb_true_iff in E4. destruct E4 as [H0 H9].
    apply Z.leb_le in H0, H9.
    rewrite read_digits_pad by (simpl; lia). reflexivity.
  - destruct (y <? 0) eqn:Eneg.
    + apply Z.ltb_lt in Eneg.
      set (body := JS.pad 6 (- y)).
      change (("-" ++ body) ++ rest)%string
        with (String "-" (body ++ rest)).
      rewrite read_digits_nondigit by reflexivity.
      cbv beta iota. subst body.
      rewrite read_digits_pad by (simpl; lia).
      f_equal. f_equal. lia.
    + apply Z.ltb_ge in Eneg.
      assert (9999 < y).
      { apply andb_false_iff in E4.
        destruct E4 as [E | E]; [apply Z.leb_gt in E | apply Z.leb_gt in E];
          lia. }
      set (body := JS.pad 6 y).
      change (("+" ++ body) ++ rest)%string
        with (String "+" (body ++ rest)).
      rewrite read_digits_nondigit by reflexivity.
      cbv beta iota. subst body.
      rewrite read_digits_pad by (simpl; lia).
      reflexivity.
Qed.

(** The year within the 400-year era of a day of the era, and the day
    within that year (years starting on March 1). *)
Lemma year_of_era (doe : Z) :
  0 <= doe < 146097 ->
  let yoe := (doe - doe / 1460 + doe / 36524 - doe / 146096) / 365 in
  let doy := doe - (365 * yoe + yoe / 4 - yoe / 100) in
  0 <= yoe <= 399 /\ 0 <= doy <= 365.
Proof.
  intros H yoe doy. subst yoe doy. Z.div_mod_to_equations. lia.
Qed.

(** The month, counted from March, of a day of the year, and the day of
    the month. *)
Lemma month_of_year (doy : Z) :
  0 <= doy <= 365 ->
  let mp := (5 * doy + 2) / 153 in
  let d := doy - (153 * mp + 2) / 5 + 1 in
  0 <= mp <= 11 /\ 1 <= d <= 31.
Proof.
  intros H mp d. subst mp d. Z.div_mod_to_equations. lia.
Qed.

(** Every day number comes back from its civil date, whose month and
    day have two digits and whose year is within 400 years of the era
    of the day. *)
Lemma days_of_civil_of_days (days : Z) :
  let '(y, m, d) := JS.civil_of_days days in
  JS.days_of_civil y m d = days
  /\ 1 <= m <= 12 /\ 1 <= d <= 31
  /\ (days + 719468) / 146097 * 400 <= y
     <= (days + 719468) / 146097 * 400 + 400.
Proof.
  unfold JS.civil_of_days.
  set (z := days + 719468).
  set (era := z / 146097).
  set (doe := z - era * 146097).
  assert (Hdoe : 0 <= doe < 146097).
  { subst doe era. Z.div_mod_to_equations. lia. }
  pose proof (year_of_era doe Hdoe) as Hyear. cbv zeta in Hyear.
  set (yoe := (doe - doe / 1460 + doe / 36524 - doe / 146096) / 365) in *.
  set (doy := doe - (365 * yoe + yoe / 4 - yoe / 100)) in *.
  destruct Hyear as [Hyoe Hdoy].
  pose proof (month_of_year doy Hdoy) as Hmonth. cbv zeta in Hmonth.
  set (mp := (5 * doy + 2) / 153) in *.
  set (d := doy - (153 * mp + 2) / 5 + 1) in *.
  destruct Hmonth as [Hmp Hd].
  assert (Hz : days = era * 146097 + doe - 719468) by (subst doe z; lia).
  assert (Hdoy_eq : doy = (153 * mp + 2) / 5 + d - 1) by (subst d; lia).
  assert (Hdoe_eq : doe = yoe * 365 + yoe / 4 - yoe / 100 + doy)
    by (subst doy; lia).
  clearbody d mp doy yoe doe era z. cbv zeta.
  unfold JS.days_of_civil.
  destruct (Z.ltb_spec mp 10) as [Hlt | Hge].
  - replace (mp + 3 <=? 2) with false by (symmetry; apply Z.leb_gt; lia).
    replace (2 <? mp + 3) with true by (symmetry; apply Z.ltb_lt; lia).
    replace (mp + 3 - 3) with mp by lia.
    replace (yoe + era * 400 + 0) with (yoe + era * 400) by lia.
    rewrite Z.div_add, (Z.div_small yoe 400) by lia.
    replace (yoe + era * 400 - (0 + era) * 400) with yoe by lia.
    cbv zeta. lia.
  - replace (mp - 9 <=? 2) with true by (symmetry; apply Z.leb_le; lia).
    replace (2 <? mp - 9) with false by (symmetry; apply Z.ltb_ge; lia).
    replace (mp - 9 + 9) with mp by lia.
    replace (yoe + era * 400 + 1 - 1) with (yoe + era * 400) by lia.
    rewrite Z.div_add, (Z.div_small yoe 400) by lia.
    replace (yoe + era * 400 - (0 + era) * 400) with yoe by lia.
    cbv zeta. lia.
Qed.

(** A time value comes back from the string [toISOString] writes for
    it. *)
Lemma ms_of_iso_of_ms (ms : Z) :
  JS.is_time_value ms = true ->
  JS.ms_of_iso (JS.iso_of_ms ms) = Some ms.
Proof.
  intros Hrange. unfold JS.is_time_value, JS.maxTimeValue in Hrange.
  apply andb_true_iff in Hrange. destruct Hrange as [Hlo Hhi].
  apply Z.leb_le in Hlo, Hhi.
  unfold JS.iso_of_ms, JS.ms_of_iso, JS.msPerDay.
  pose proof (days_of_civil_of_days (ms / 86400000)) as Hcivil.
  pose proof (Z.div_mod ms 86400000) as Hms.
  pose proof (Z.mod_pos_bound ms 86400000) as Hrest.
  set (days := ms / 86400000) in *.
  set (rest := ms mod 86400000) in *.
  assert (Hdays : - 100000000 <= days <= 100000000).
  { subst days. split.
    - apply Z.div_le_lower_bound; lia.
    - apply Z.div_le_upper_bound; lia. }
  destruct (JS.civil_of_days days) as [[y m] d].
  destruct Hcivil as (Hback & Hm & Hd & Hy).
  assert (Hera : - 700 <= (days + 719468) / 146097 <= 700).
  { split.
    - apply Z.div_le_lower_bound; lia.
    - apply Z.div_le_upper_bound; lia. }
  set (h := rest / 3600000).
  set (mi := rest / 60000 mod 60).
  set (sec := rest / 1000 mod 60).
  set (milli := rest mod 1000).
  assert (Hfields :
            0 <= h < 100 /\ 0 <= mi < 100 /\ 0 <= sec < 100
            /\ 0 <= milli < 1000
            /\ h * 3600000 + mi * 60000 + sec * 1000 + milli = rest).
  { subst h mi sec milli. Z.div_mod_to_equations. lia. }
  destruct Hfields as (Hh & Hmi & Hsec & Hmilli & Hsum).
  clearbody h mi sec milli days rest.
  rewrite read_year_iso_year by lia.
  cbn [append]. cbv beta iota.
  rewrite (read_field_pad 2) by (simpl; lia). cbv beta iota.
  rewrite (read_field_pad 2) by (simpl; lia). cbv beta iota.
  rewrite (read_field_pad 2) by (simpl; lia). cbv beta iota.
  rewrite (read_field_pad 2) by (simpl; lia). cbv beta iota.
  rewrite (read_field_pad 2) by (simpl; lia). cbv beta iota.
  rewrite (read_field_pad 3) by (simpl; lia). cbv beta iota.
  f_equal. lia.
Qed.

(** So the string determines the time value. *)
Lemma iso_of_ms_injective (a b : Z) :
  JS.is_time_value a = true ->
  JS.is_time_value b = true ->
  JS.iso_of_ms a = JS.iso_of_ms b ->
  a = b.
Proof.
  intros Ha Hb E.
  apply ms_of_iso_of_ms in Ha. apply ms_of_iso_of_ms in Hb.
  rewrite E in Ha. congruence.
Qed.

(** ** Lists and observations *)

Lemma skipn_length_app {A} (l r : list A) :
  skipn (List.length l) (l ++ r) = r.
Proof. induction l as [|x l IH]; simpl; auto. Qed.

Lemma skipn_length_self {A} (l : list A) : skipn (List.length l) l = [].
Proof. induction l as [|x l IH]; simpl; auto. Qed.

Arguments JS.iso_of_ms : simpl never.
Arguments JS.toString : simpl never.
Arguments SQLite.next_rowid : simpl never.
Arguments SQLite.maxRowid : simpl never.
Arguments Z.leb : simpl never.
Arguments uuid : simpl never.

(** Name the parts of a world. *)
Ltac open_world w :=
  destruct w as [[?jm ?tb] [?sch ?iss ?fr] ?con [?rem ?ti ?me ?da] ?fl ?tr].

(** Split on what the plan holds for the next host call. *)
Ltac next_call :=
  try match goal with
      | fl : list (option Error) |- _ => destruct fl as [|[?e|] ?fl]
      end.

(** Split on whether the table still has a rowid to give. *)
Ltac capacity :=
  try match goal with
      | |- context [SQLite.next_rowid ?t <=? SQLite.maxRowid] =>
          destruct (SQLite.next_rowid t <=? SQLite.maxRowid) eqn:?Hcap
      end.

(** Unfold the functions of the component down to constructors,
    leaving list operations and arithmetic alone. *)
Ltac unfold_app :=
  cbv beta iota zeta delta
    [initializeDatabase loadReminders addReminder deleteReminder
     scheduleNotification perform
     Db.execAsync_schema Db.getAllAsync Db.runAsync_insert
     Db.runAsync_delete
     scheduleNotificationAsync cancelScheduledNotificationAsync
     toISOString useState setReminders setTitle setMessage setDate
     console_log hostCall try_catch bind ret throw
     planned_fault consume_fault record
     set_db set_host set_ui set_faults
     SQLite.insert SQLite.delete SQLite.select_all SQLite.create_schema
     Notifications.schedule Notifications.cancel
     JS.toISOString
     calls events printed result after listed pending stored
     db host console ui faults trace
     SQLite.reminders SQLite.journal_mode
     State.reminders State.title State.message State.date
     Notifications.scheduled Notifications.issued Notifications.fresh
     Notifications.identifier Notifications.content Notifications.trigger
     fst snd tl].

(** Run the functions of the component and read off what happened. *)
Ltac observe :=
  unfold removal_then_cancel;
  unfold_app;
  rewrite <- ?app_assoc;
  rewrite ?skipn_length_app, ?skipn_length_self;
  cbn.

(** ** The delete flow *)

Lemma deleteReminder_flow (id : Z) (w : World) :
  removal_then_cancel id (events (deleteReminder id) w).
Proof.
  open_world w.
  destruct tb as [t|]; do 3 next_call; observe; eauto 8.
Qed.

(** C2, as the claim states it, fails: deleting reminder 1 right after
    adding it issues the [DELETE] statement first and the cancellation
    second. *)
Lemma cancel_before_removal_fails :
  ~ cancel_before_removal 1
      (run [Add "Pay rent" "Due today" year2100] (started [])).
Proof.
  unfold cancel_before_removal. vm_compute. discriminate.
Qed.

(** C2 (amended): every run of the delete flow first removes the record
    from the store and only then cancels the notification tagged with the
    string form of the id; the cancellation is attempted only when the
    removal succeeded, and no cancellation ever precedes a removal. *)
Theorem delete_flow_removes_then_cancels (id : Z) (w : World) :
  removal_then_cancel id (events (deleteReminder id) w)
  /\ precedes is_cancel_call is_removal_call (calls (deleteReminder id) w)
     = false.
Proof.
  pose proof (deleteReminder_flow id w) as H.
  split; [exact H|].
  unfold calls.
  destruct H as [[e ->] | [(n & e & ->) | (n & r & ->)]]; reflexivity.
Qed.

(** ** Failure of the first store call *)

Ltac refute_membership H :=
  repeat (destruct H as [H|H]; [try discriminate H|]); try contradiction H.

(** C10: when the store call that opens a flow is rejected (the insert
    of the add flow, the removal of the delete flow), no call goes to
    the notification scheduler, the list is not read again, and the list
    on screen, like the rest of the React state, is what it was. *)
Theorem failed_mutation_stops_flow (w : World) :
  (forall title message date e,
      In (RunInsert title message date, Rejected e) (events addReminder w) ->
      flow_stopped addReminder w)
  /\ (forall id e,
        In (RunDelete id, Rejected e) (events (deleteReminder id) w) ->
        flow_stopped (deleteReminder id) w).
Proof.
  unfold flow_stopped. split.
  - open_world w.
    destruct da as [ms|]; destruct tb as [t|]; do 3 next_call.
    all: unfold_app; capacity; observe.
    all: intros title message date e' H.
    all: try solve [repeat split; reflexivity].
    all: exfalso; refute_membership H.
  - intros id. open_world w.
    destruct tb as [t|]; do 3 next_call.
    all: observe.
    all: intros e' H.
    all: try solve [repeat split; reflexivity].
    all: exfalso; refute_membership H.
Qed.

Lemma failed_mutation_stops_flow_witness :
  flow_stopped addReminder (started [Some (HostFailure 5)])
  /\ flow_stopped (deleteReminder 1) (started [Some (HostFailure 5)]).
Proof.
  split.
  - apply (proj1 (failed_mutation_stops_flow (started [Some (HostFailure 5)]))
             "" "" "1970-01-01T00:00:00.000Z" (HostFailure 5)).
    vm_compute. right. left. reflexivity.
  - apply (proj2 (failed_mutation_stops_flow (started [Some (HostFailure 5)]))
             1 (HostFailure 5)).
    vm_compute. left. reflexivity.
Defined.

(** ** Failure of the arming call *)

Ltac pick_membership H :=
  repeat (destruct H as [H|H]; [try discriminate H|]);
  try contradiction H;
  try (injection H as <- <-).

(** Split a world into the cases the add flow distinguishes: the date,
    the table, and the plan for its three host calls. *)
Ltac split_date :=
  match goal with
  | d : JS.Date |- _ => destruct d as [?ms|]
  end.

Ltac split_table :=
  match goal with
  | tb : option SQLite.Table |- _ => destruct tb as [?t|]
  end.

Ltac add_cases w :=
  open_world w;
  split_date;
  [ split_table; [ do 3 next_call | next_call ] | ];
  unfold_app; capacity; observe.

(** C7: whenever the arming call of the add flow is rejected (which
    presupposes that the insert went through), the store afterwards
    holds the rows it held before followed by the new record: nothing
    is rolled back, no removal is issued, no notification is pending for
    it, and the failure is printed on the console. *)
Theorem arming_failure_keeps_record
    (w : World) (req : Notifications.Request) (e : Error) :
  In (ScheduleNotification req, Rejected e) (events addReminder w) ->
  exists t iso,
    SQLite.reminders (db w) = Some t
    /\ JS.toISOString (State.date (ui w)) = Some iso
    /\ stored (after addReminder w)
       = stored w
         ++ [Row.mk (SQLite.next_rowid t) (State.title (ui w))
               (State.message (ui w)) iso]
    /\ pending (after addReminder w) = pending w
    /\ existsb is_removal_call (calls addReminder w) = false
    /\ In (Caught "Error scheduling notification: " e)
         (printed addReminder w)
    /\ result addReminder w = Done tt.
Proof.
  add_cases w.
  all: intros H; pick_membership H.
  all: eexists; eexists; repeat split; try reflexivity.
  all: auto.
Qed.

Lemma arming_failure_keeps_record_witness :
  exists t iso,
    SQLite.reminders (db (started [None; Some (HostFailure 3)])) = Some t
    /\ JS.toISOString
         (State.date (ui (started [None; Some (HostFailure 3)]))) = Some iso
    /\ stored (after addReminder (started [None; Some (HostFailure 3)]))
       = stored (started [None; Some (HostFailure 3)])
         ++ [Row.mk (SQLite.next_rowid t)
               (State.title (ui (started [None; Some (HostFailure 3)])))
               (State.message (ui (started [None; Some (HostFailure 3)])))
               iso]
    /\ pending (after addReminder (started [None; Some (HostFailure 3)]))
       = pending (started [None; Some (HostFailure 3)])
    /\ existsb is_removal_call
         (calls addReminder (started [None; Some (HostFailure 3)])) = false
    /\ In (Caught "Error scheduling notification: " (HostFailure 3))
         (printed addReminder (started [None; Some (HostFailure 3)]))
    /\ result addReminder (started [None; Some (HostFailure 3)]) = Done tt.
Proof.
  apply (arming_failure_keeps_record
           (started [None; Some (HostFailure 3)])
           {| Notifications.identifier := None;
              Notifications.content :=
                {| Notifications.title := "";
                   Notifications.body := "";
                   Notifications.sound := true;
                   Notifications.icon := "./assets/icon.png" |};
              Notifications.trigger := JS.TimeValue 0 |}
           (HostFailure 3)).
  vm_compute. right. right. left. reflexivity.
Defined.

(** ** The propagation policy *)

(** C6, as the claim states it, fails: when the arming call of the add
    flow is rejected, the flow does not skip what remains; it reads the
    list again, and the list on screen changes. *)
Lemma logged_and_stopped_fails :
  ~ logged_and_stopped addReminder (started [None; Some (HostFailure 3)]).
Proof.
  intros (_ & _ & Hstop & _).
  vm_compute in Hstop. discriminate Hstop.
Qed.

(** There the insert went through, the arming call was rejected, and the
    list on screen went from empty to the new row. *)
Example arming_failure_still_refreshes :
  events addReminder (started [None; Some (HostFailure 3)])
  = [(ToISOString (JS.TimeValue 0),
      Resolved (VString "1970-01-01T00:00:00.000Z"));
     (RunInsert "" "" "1970-01-01T00:00:00.000Z", Resolved (VRowid 1));
     (ScheduleNotification
        (Notifications.mkRequest None
           (Notifications.mkContent "" "" true "./assets/icon.png")
           (JS.TimeValue 0)),
      Rejected (HostFailure 3));
     (GetAll,
      Resolved (VRows [Row.mk 1 "" "" "1970-01-01T00:00:00.000Z"]))]
  /\ listed (started [None; Some (HostFailure 3)]) = []
  /\ listed (after addReminder (started [None; Some (HostFailure 3)]))
     = [Row.mk 1 "" "" "1970-01-01T00:00:00.000Z"].
Proof. vm_compute. repeat split; reflexivity. Qed.

Lemma loadReminders_contained (w : World) :
  logged_and_contained loadReminders w.
Proof.
  unfold logged_and_contained.
  open_world w. destruct tb as [t|]; next_call; observe.
  all: repeat split; try reflexivity; intros H; discriminate H.
Qed.

Lemma addReminder_contained (w : World) :
  logged_and_contained addReminder w.
Proof.
  unfold logged_and_contained.
  add_cases w.
  all: repeat split; try reflexivity; intros H; discriminate H.
Qed.

Lemma deleteReminder_contained (id : Z) (w : World) :
  logged_and_contained (deleteReminder id) w.
Proof.
  unfold logged_and_contained.
  open_world w. destruct tb as [t|]; [ do 3 next_call | next_call ]; observe.
  all: repeat split; try reflexivity; intros H; discriminate H.
Qed.

(** C6 (amended): load, add and delete never propagate an error, and the
    console shows exactly the errors raised inside them. When a call
    other than the arming call is rejected, it is the last call of the
    flow and the list on screen stays what it was. A rejected arming call
    is caught inside [scheduleNotification]: the add flow then still
    reads the list again. *)
Theorem errors_logged_and_contained (id : Z) (w : World) :
  logged_and_contained loadReminders w
  /\ logged_and_contained addReminder w
  /\ logged_and_contained (deleteReminder id) w.
Proof.
  auto using loadReminders_contained, addReminder_contained,
    deleteReminder_contained.
Qed.

Lemma errors_logged_and_contained_witness :
  logged_and_contained loadReminders (started [Some (HostFailure 3)])
  /\ logged_and_contained addReminder (started [Some (HostFailure 3)])
  /\ logged_and_contained (deleteReminder 4) (started [Some (HostFailure 3)]).
Proof.
  exact (errors_logged_and_contained 4 (started [Some (HostFailure 3)])).
Defined.

(** ** Rowids *)

Lemma largest_rowid_bound (rs : list Row.t) (r : Row.t) :
  In r rs -> Row.id r <= SQLite.largest_rowid rs.
Proof.
  induction rs as [|r' rs IH]; simpl; [tauto|].
  intros [-> | H]; [lia|].
  specialize (IH H). lia.
Qed.

Lemma next_rowid_unused (t : SQLite.Table) :
  ~ In (SQLite.next_rowid t) (map Row.id (SQLite.rows t)).
Proof.
  intros H. apply in_map_iff in H. destruct H as (r & Hid & Hin).
  apply largest_rowid_bound in Hin.
  unfold SQLite.next_rowid in Hid. lia.
Qed.

Lemma next_rowid_above_seq (t : SQLite.Table) :
  SQLite.seq t < SQLite.next_rowid t.
Proof. unfold SQLite.next_rowid. lia. Qed.

Lemma NoDup_ids_insert (t : SQLite.Table) (title message date : string) :
  NoDup (map Row.id (SQLite.rows t)) ->
  NoDup (map Row.id
           (SQLite.rows t
            ++ [Row.mk (SQLite.next_rowid t) title message date])).
Proof.
  intros H. rewrite map_app. simpl.
  apply NoDup_app; [exact H | repeat constructor; intros [] | ].
  intros k Hin [<- | []]. exact (next_rowid_unused t Hin).
Qed.

Lemma NoDup_ids_filter (f : Row.t -> bool) (l : list Row.t) :
  NoDup (map Row.id l) -> NoDup (map Row.id (filter f l)).
Proof.
  induction l as [|r l IH]; simpl; [auto|].
  intros H. inversion H as [|k ks Hnotin Hrest]; subst.
  destruct (f r); simpl; [|auto].
  constructor; [|auto].
  intros Hin. apply Hnotin.
  apply in_map_iff in Hin. destruct Hin as (r' & Hid & Hin).
  apply filter_In in Hin. apply in_map_iff. exists r'. tauto.
Qed.

(** ** Add, then list *)

(** C3: for any title, message and time value (empty strings and dates
    in the past included), on a started application whose table can
    still give a rowid and whose host calls go through, the add flow
    returns without any error, and reading the list afterwards yields
    the former rows followed by one record with exactly that title, that
    message and, as its date, the ISO string of that time value, from
    which the time value of any [Date] is read back; the record is under
    an id that no stored row has and that is above every id the table
    has ever given. *)
Theorem add_then_list
    (w : World) (t : SQLite.Table) (title message : string) (ms : Z) :
  SQLite.reminders (db w) = Some t ->
  SQLite.next_rowid t <= SQLite.maxRowid ->
  faults w = [] ->
  let flow := (perform (Add title message (JS.TimeValue ms)) ;;
               loadReminders)%async in
  let row :=
    Row.mk (SQLite.next_rowid t) title message (JS.iso_of_ms ms) in
  result flow w = Done tt
  /\ caught_errors (printed flow w) = []
  /\ rejections (events flow w) = []
  /\ listed (after flow w) = SQLite.rows t ++ [row]
  /\ ~ In (Row.id row) (map Row.id (SQLite.rows t))
  /\ SQLite.seq t < Row.id row
  /\ (JS.is_time_value ms = true ->
      JS.ms_of_iso (Row.date row) = Some ms
      /\ forall ms',
           JS.is_time_value ms' = true ->
           JS.iso_of_ms ms' = Row.date row -> ms' = ms).
Proof.
  intros Htable Hcap Hplan flow row.
  assert (Hfresh := next_rowid_unused t).
  assert (Hseq := next_rowid_above_seq t).
  subst flow row.
  open_world w. cbn in Htable, Hplan. subst tb fl.
  apply Z.leb_le in Hcap.
  unfold_app. capacity; [ | congruence ]. observe.
  repeat split; auto using ms_of_iso_of_ms.
  intros ms' Hms' E. apply iso_of_ms_injective; assumption.
Qed.

Lemma add_then_list_witness :
  result (perform (Add "" "" (JS.TimeValue (-1))) ;; loadReminders)
    (run [Add "Pay rent" "Due today" year2100] (started []))
  = Done tt
  /\ listed (after (perform (Add "" "" (JS.TimeValue (-1))) ;;
                    loadReminders)
               (run [Add "Pay rent" "Due today" year2100] (started [])))
     = [Row.mk 1 "Pay rent" "Due today" "2100-01-01T00:00:00.000Z";
        Row.mk 2 "" "" "1969-12-31T23:59:59.999Z"]
  /\ JS.ms_of_iso "1969-12-31T23:59:59.999Z" = Some (-1).
Proof.
  destruct (add_then_list
              (run [Add "Pay rent" "Due today" year2100] (started []))
              {| SQLite.rows :=
                   [Row.mk 1 "Pay rent" "Due today"
                      "2100-01-01T00:00:00.000Z"];
                 SQLite.seq := 1 |}
              "" "" (-1))
    as (Hres & _ & _ & Hlist & _ & _ & Hdate).
  - vm_compute. reflexivity.
  - vm_compute. discriminate.
  - vm_compute. reflexivity.
  - split; [exact Hres|]. split; [exact Hlist|].
    exact (proj1 (Hdate eq_refl)).
Defined.

(** ** Deleting twice *)

Lemma filter_keeps_twice (id : Z) (rs : list Row.t) :
  filter (SQLite.keeps id) (filter (SQLite.keeps id) rs)
  = filter (SQLite.keeps id) rs.
Proof.
  induction rs as [|r rs IH]; simpl; [reflexivity|].
  destruct (SQLite.keeps id r) eqn:E; simpl; rewrite ?E, IH; reflexivity.
Qed.

Lemma filter_keeps_absent (id : Z) (rs : list Row.t) :
  ~ In id (map Row.id rs) -> filter (SQLite.keeps id) rs = rs.
Proof.
  induction rs as [|r rs IH]; simpl; [reflexivity|].
  intros H. unfold SQLite.keeps at 1.
  destruct (Z.eqb_spec (Row.id r) id) as [E|E]; simpl.
  - exfalso. apply H. left. exact E.
  - f_equal. apply IH. intros Hin. apply H. right. exact Hin.
Qed.

Lemma filter_keeps_removes (id : Z) (rs : list Row.t) :
  ~ In id (map Row.id (filter (SQLite.keeps id) rs)).
Proof.
  intros H. apply in_map_iff in H. destruct H as (r & Hid & Hin).
  apply filter_In in Hin. destruct Hin as [_ Hkeep].
  unfold SQLite.keeps in Hkeep. rewrite Hid, Z.eqb_refl in Hkeep.
  discriminate Hkeep.
Qed.

(** The delete flow when the table exists and no host call is rejected. *)
Lemma deleteReminder_quiet (id : Z) (w : World) (t : SQLite.Table) :
  SQLite.reminders (db w) = Some t ->
  faults w = [] ->
  deleteReminder id w
  = (Done tt,
     let kept := filter (SQLite.keeps id) (SQLite.rows t) in
     {| db := {| SQLite.journal_mode := SQLite.journal_mode (db w);
                 SQLite.reminders :=
                   Some {| SQLite.rows := kept;
                           SQLite.seq := SQLite.seq t |} |};
        host := Notifications.cancel (JS.toString id) (host w);
        console := console w;
        ui := State.mk kept (State.title (ui w)) (State.message (ui w))
                (State.date (ui w));
        faults := [];
        trace :=
          trace w
          ++ [(RunDelete id,
               Resolved (VChanges (List.length (SQLite.rows t)
                                   - List.length kept)%nat));
              (CancelScheduled (JS.toString id), Resolved VUnit);
              (GetAll, Resolved (VRows kept))] |}).
Proof.
  intros Htable Hplan.
  open_world w. cbn in Htable, Hplan. subst tb fl.
  observe. reflexivity.
Qed.

(** C4: for every id, on a started application whose host calls go
    through, deleting the same id twice in a row returns normally both
    times, prints and rejects nothing either time, and leaves the store
    after the second call exactly as it was after the first; after the
    first call no stored row has the id, and deleting an id that no
    stored row has leaves the store as it was. *)
Theorem delete_twice (id : Z) (w : World) (t : SQLite.Table) :
  SQLite.reminders (db w) = Some t ->
  faults w = [] ->
  let w1 := after (deleteReminder id) w in
  let w2 := after (deleteReminder id) w1 in
  result (deleteReminder id) w = Done tt
  /\ result (deleteReminder id) w1 = Done tt
  /\ console w1 = console w
  /\ console w2 = console w
  /\ rejections (events (deleteReminder id) w) = []
  /\ rejections (events (deleteReminder id) w1) = []
  /\ db w2 = db w1
  /\ listed w2 = listed w1
  /\ ~ In id (map Row.id (stored w1))
  /\ (~ In id (map Row.id (stored w)) -> db w1 = db w).
Proof.
  intros Htable Hplan w1 w2.
  pose proof (deleteReminder_quiet id w t Htable Hplan) as E1.
  assert (Hw1 : w1 = snd (deleteReminder id w)) by reflexivity.
  rewrite E1 in Hw1. cbn in Hw1.
  pose proof (deleteReminder_quiet id w1
                {| SQLite.rows := filter (SQLite.keeps id) (SQLite.rows t);
                   SQLite.seq := SQLite.seq t |}) as E2.
  rewrite Hw1 in E2 at 1 2. specialize (E2 eq_refl eq_refl).
  assert (Hw2 : w2 = snd (deleteReminder id w1)) by reflexivity.
  rewrite E2 in Hw2. cbn in Hw2. rewrite filter_keeps_twice in Hw2.
  unfold result, events, after.
  rewrite E2. fold w1. rewrite E1. cbn.
  rewrite !skipn_length_app.
  rewrite Hw2, Hw1. cbn.
  repeat split.
  - apply filter_keeps_removes.
  - unfold stored. rewrite Htable. intros Habsent.
    rewrite (filter_keeps_absent id _ Habsent).
    destruct (db w) as [jm tb]. cbn in *. subst tb. destruct t; reflexivity.
Qed.

Lemma delete_twice_witness :
  db (after (deleteReminder 1)
        (after (deleteReminder 1)
           (run [Add "Pay rent" "Due today" year2100] (started []))))
  = db (after (deleteReminder 1)
          (run [Add "Pay rent" "Due today" year2100] (started []))).
Proof.
  destruct (delete_twice 1
              (run [Add "Pay rent" "Due today" year2100] (started []))
              {| SQLite.rows :=
                   [Row.mk 1 "Pay rent" "Due today" "2100-01-01T00:00:00.000Z"];
                 SQLite.seq := 1 |})
    as (_ & _ & _ & _ & _ & _ & Hdb & _).
  - vm_compute. reflexivity.
  - vm_compute. reflexivity.
  - exact Hdb.
Defined.

(** ** Cancelling what is not scheduled *)

Lemma filter_untagged_absent
    (s : string) (l : list Notifications.Scheduled) :
  existsb (Notifications.tagged s) l = false ->
  filter (Notifications.untagged s) l = l.
Proof.
  induction l as [|n l IH]; simpl; [reflexivity|].
  intros H. apply orb_false_iff in H. destruct H as [Hn Hl].
  unfold Notifications.untagged at 1. rewrite Hn. simpl.
  f_equal. exact (IH Hl).
Qed.

(** C9: for every id, when the scheduler holds no notification tagged
    with the string form of the id, the cancellation resolves (the
    scheduler being reachable): it returns normally, nothing is pending
    more or less than before, nothing is printed; and the delete flow
    built on it rejects nothing. *)
Theorem cancel_without_arm (id : Z) (w : World) :
  planned_fault w = None ->
  existsb (Notifications.tagged (JS.toString id)) (pending w) = false ->
  let cancel := cancelScheduledNotificationAsync (JS.toString id) in
  result cancel w = Done tt
  /\ events cancel w = [(CancelScheduled (JS.toString id), Resolved VUnit)]
  /\ pending (after cancel w) = pending w
  /\ console (after cancel w) = console w
  /\ (forall t,
        SQLite.reminders (db w) = Some t ->
        faults w = [] ->
        result (deleteReminder id) w = Done tt
        /\ rejections (events (deleteReminder id) w) = []
        /\ pending (after (deleteReminder id) w) = pending w
        /\ console (after (deleteReminder id) w) = console w).
Proof.
  intros Hplan Habsent cancel. subst cancel.
  apply filter_untagged_absent in Habsent.
  split; [|split; [|split; [|split]]].
  - open_world w. next_call; try discriminate Hplan; observe; reflexivity.
  - open_world w. next_call; try discriminate Hplan; observe; reflexivity.
  - open_world w. cbn in Habsent.
    next_call; try discriminate Hplan; observe; exact Habsent.
  - open_world w. next_call; try discriminate Hplan; observe; reflexivity.
  - intros t Htable Hquiet.
    unfold result, events, after, pending.
    rewrite (deleteReminder_quiet id w t Htable Hquiet). cbn.
    rewrite skipn_length_app.
    repeat split. exact Habsent.
Qed.

Lemma cancel_without_arm_witness :
  result (cancelScheduledNotificationAsync (JS.toString 7)) (started [])
  = Done tt
  /\ pending (after (cancelScheduledNotificationAsync (JS.toString 7))
                (started []))
     = pending (started []).
Proof.
  destruct (cancel_without_arm 7 (started [])) as (Hres & _ & Hpend & _).
  - reflexivity.
  - reflexivity.
  - split; [exact Hres | exact Hpend].
Defined.

(** ** The tag of an armed notification *)

(** The request the add flow hands to the scheduler carries no
    identifier, whatever the world. *)
Lemma arming_request_has_no_identifier
    (w : World) (req : Notifications.Request) (r : Settled) :
  In (ScheduleNotification req, r) (events addReminder w) ->
  Notifications.identifier req = None.
Proof.
  add_cases w.
  all: intros H.
  all: repeat (destruct H as [H|H]; [try discriminate H|]);
       try contradiction H.
  all: injection H as <- _; reflexivity.
Qed.

(** So the tag is the one the host issues, and the row id has no part
    in it. *)
Lemma arming_tag_is_issued_by_host
    (w : World) (req : Notifications.Request) (s : string) :
  In (ScheduleNotification req, Resolved (VIdentifier s))
     (events addReminder w) ->
  s = Notifications.fresh (host w) (Notifications.issued (host w)).
Proof.
  add_cases w.
  all: intros H.
  all: repeat (destruct H as [H|H]; [try discriminate H|]);
       try contradiction H.
  all: injection H as _ <-; reflexivity.
Qed.

(** C1 at a concrete run: on a started application, adding the reminder
    ("Pay rent", "Due today", 2100-01-01) gives the record the id 1 and
    arms a notification tagged with an identifier of the host, not with
    "1"; deleting reminder 1 right after removes the record and cancels
    the tag "1" without any error, and the notification armed by the add
    is still pending. *)
Theorem add_then_delete_leaves_notification :
  let add := perform (Add "Pay rent" "Due today" year2100) in
  let w1 := after add (started []) in
  let w2 := after (deleteReminder 1) w1 in
  assigned_ids (events add (started [])) = [1]
  /\ map Row.id (stored w1) = [1]
  /\ map Notifications.tag (pending w1) = [uuid 0]
  /\ existsb (Notifications.tagged (JS.toString 1)) (pending w1) = false
  /\ events (deleteReminder 1) w1
     = [(RunDelete 1, Resolved (VChanges 1));
        (CancelScheduled "1", Resolved VUnit);
        (GetAll, Resolved (VRows []))]
  /\ stored w2 = []
  /\ pending w2
     = [Notifications.mkScheduled (uuid 0)
          (Notifications.mkContent "Pay rent" "Due today" true
             "./assets/icon.png")
          year2100].
Proof.
  vm_compute. repeat split; reflexivity.
Qed.

(** ** Initialization *)

Lemma create_schema_twice (d : SQLite.Db) :
  SQLite.create_schema (SQLite.create_schema d) = SQLite.create_schema d.
Proof.
  destruct d as [jm [t|]]; reflexivity.
Qed.

(** A call of [initializeDatabase], rejected or not, keeps an existing
    table as it is. *)
Lemma initializeDatabase_keeps_table (w : World) (t : SQLite.Table) :
  SQLite.reminders (db w) = Some t ->
  SQLite.reminders (db (after initializeDatabase w)) = Some t.
Proof.
  open_world w. cbn. intros ->. next_call; observe; reflexivity.
Qed.

Lemma initializeDatabase_returns (w : World) :
  result initializeDatabase w = Done tt.
Proof.
  open_world w. next_call; observe; reflexivity.
Qed.

Lemma initializeDatabase_quiet (w : World) :
  faults w = [] ->
  db (after initializeDatabase w) = SQLite.create_schema (db w)
  /\ faults (after initializeDatabase w) = [].
Proof.
  open_world w. cbn. intros ->. observe. split; reflexivity.
Qed.

Lemma repeat_init_keeps_table (n : nat) :
  forall (w : World) (t : SQLite.Table),
    SQLite.reminders (db w) = Some t ->
    SQLite.reminders (db (repeat_init n w)) = Some t.
Proof.
  induction n as [|n IH]; intros w t H; simpl; [exact H|].
  apply IH. apply initializeDatabase_keeps_table. exact H.
Qed.

Lemma repeat_init_fixed (n : nat) :
  forall w : World,
    faults w = [] ->
    SQLite.create_schema (db w) = db w ->
    db (repeat_init n w) = db w.
Proof.
  induction n as [|n IH]; intros w Hplan Hfix; simpl; [reflexivity|].
  destruct (initializeDatabase_quiet w Hplan) as [Hdb Hplan'].
  rewrite IH; rewrite ?Hdb, ?create_schema_twice; auto.
Qed.

(** C8: [initializeDatabase] can be called any number of times: it
    always returns normally; a table that exists keeps its rows and its
    sequence through any number of calls, rejected or not; and when the
    calls go through, any positive number of them leaves the database as
    one call does, in WAL mode with the [reminders] table in place, empty
    if it had to be created. *)
Theorem initialize_idempotent (n : nat) (w : World) :
  result initializeDatabase (repeat_init n w) = Done tt
  /\ (forall t,
        SQLite.reminders (db w) = Some t ->
        SQLite.reminders (db (repeat_init n w)) = Some t)
  /\ (faults w = [] ->
      (0 < n)%nat ->
      db (repeat_init n w) = db (after initializeDatabase w)
      /\ SQLite.journal_mode (db (repeat_init n w)) = SQLite.WAL
      /\ exists t,
           SQLite.reminders (db (repeat_init n w)) = Some t
           /\ (SQLite.reminders (db w) = None ->
               t = {| SQLite.rows := []; SQLite.seq := 0 |})).
Proof.
  split; [apply initializeDatabase_returns|].
  split; [intros t; apply repeat_init_keeps_table|].
  intros Hplan Hn.
  destruct n as [|n]; [lia|]. simpl.
  destruct (initializeDatabase_quiet w Hplan) as [Hdb Hplan'].
  rewrite repeat_init_fixed; rewrite ?Hdb, ?create_schema_twice; auto.
  split; [reflexivity|]. split; [reflexivity|].
  destruct (db w) as [jm [t|]]; cbn.
  - exists t. split; [reflexivity|]. intros H; discriminate H.
  - eexists. split; [reflexivity|]. reflexivity.
Qed.

Lemma initialize_idempotent_witness :
  db (repeat_init 3 (install [])) = db (after initializeDatabase (install []))
  /\ stored (repeat_init 2
               (run [Add "Pay rent" "Due today" year2100] (started [])))
     = [Row.mk 1 "Pay rent" "Due today" "2100-01-01T00:00:00.000Z"].
Proof.
  split.
  - destruct (initialize_idempotent 3 (install [])) as (_ & _ & H).
    destruct H as (Hdb & _); [reflexivity | lia | exact Hdb].
  - destruct (initialize_idempotent 2
                (run [Add "Pay rent" "Due today" year2100] (started [])))
      as (_ & H & _).
    unfold stored.
    rewrite (H {| SQLite.rows :=
                    [Row.mk 1 "Pay rent" "Due today"
                       "2100-01-01T00:00:00.000Z"];
                  SQLite.seq := 1 |}); [reflexivity|].
    vm_compute. reflexivity.
Defined.

(** ** Ids handed out along a run *)

Lemma assigned_ids_app (l1 l2 : list Event) :
  assigned_ids (l1 ++ l2) = assigned_ids l1 ++ assigned_ids l2.
Proof.
  induction l1 as [|[c r] l1 IH]; simpl; [reflexivity|].
  destruct c; try exact IH.
  destruct r as [v|e]; try exact IH.
  destruct v; try exact IH.
  simpl. f_equal. exact IH.
Qed.

(** What one action does to the record of calls and to the sequence:
    it hands out no id and the sequence does not go down, or it hands out
    one id, above the sequence, which becomes the sequence. *)
Lemma perform_step (a : Action) (w : World) :
  exists evs,
    trace (after (perform a) w) = trace w ++ evs
    /\ ((assigned_ids evs = []
         /\ seq_of w <= seq_of (after (perform a) w))
        \/ (exists k,
              assigned_ids evs = [k]
              /\ seq_of w < k
              /\ seq_of (after (perform a) w) = k)).
Proof.
  unfold seq_of.
  destruct a as [title message [ms|] | id | ]; open_world w.
  - split_table; [ do 3 next_call | next_call ].
    all: unfold_app; capacity; observe.
    all: eexists; split; [reflexivity|].
    all: try solve [left; split; [reflexivity | cbn; lia]].
    all: right; eexists; split; [reflexivity|].
    all: split; [apply next_rowid_above_seq | reflexivity].
  - observe. eexists; split; [reflexivity|].
    left; split; [reflexivity | cbn; lia].
  - split_table; [ do 3 next_call | next_call ].
    all: observe.
    all: eexists; split; [reflexivity|].
    all: left; split; [reflexivity | cbn; lia].
  - split_table; next_call.
    all: observe.
    all: eexists; split; [reflexivity|].
    all: left; split; [reflexivity | cbn; lia].
Qed.

Lemma run_extends_trace (acts : list Action) :
  forall w : World, exists evs, trace (run acts w) = trace w ++ evs.
Proof.
  induction acts as [|a acts IH]; intros w; simpl.
  - exists []. symmetry. apply app_nil_r.
  - destruct (IH (after (perform a) w)) as [evs2 E2].
    destruct (perform_step a w) as (evs1 & E1 & _).
    exists (evs1 ++ evs2). rewrite E2, E1. symmetry. apply app_assoc.
Qed.

Lemma history_cons (a : Action) (acts : list Action) (w : World) :
  history (a :: acts) w
  = events (perform a) w ++ history acts (after (perform a) w).
Proof.
  unfold history, events. simpl.
  destruct (perform_step a w) as (evs1 & E1 & _).
  destruct (run_extends_trace acts (after (perform a) w)) as [evs2 E2].
  rewrite E2, E1.
  rewrite (skipn_length_app (trace w ++ evs1)).
  rewrite <- app_assoc. rewrite !skipn_length_app. reflexivity.
Qed.

Lemma history_ids_increase (acts : list Action) :
  forall w : World,
    StronglySorted Z.lt (assigned_ids (history acts w))
    /\ Forall (fun k => seq_of w < k) (assigned_ids (history acts w)).
Proof.
  induction acts as [|a acts IH]; intros w.
  - unfold history. simpl. rewrite skipn_length_self. simpl.
    split; constructor.
  - rewrite history_cons, assigned_ids_app.
    destruct (IH (after (perform a) w)) as [Hsorted Habove].
    destruct (perform_step a w) as (evs & Htrace & Hstep).
    unfold events. rewrite Htrace, skipn_length_app.
    destruct Hstep as [[-> Hseq] | (k & -> & Hk & Hseq)]; simpl.
    + split; [exact Hsorted|].
      eapply Forall_impl; [|exact Habove]. intros x Hx. simpl in Hx. lia.
    + rewrite Hseq in Habove. split.
      * constructor; [exact Hsorted | exact Habove].
      * constructor; [exact Hk|].
        eapply Forall_impl; [|exact Habove]. intros x Hx. simpl in Hx. lia.
Qed.

Lemma strictly_sorted_NoDup (l : list Z) : StronglySorted Z.lt l -> NoDup l.
Proof.
  induction 1 as [|k l Hsorted IH Habove]; constructor; [|exact IH].
  intros Hin. rewrite Forall_forall in Habove.
  specialize (Habove k Hin). lia.
Qed.

Lemma largest_rowid_snoc (rs : list Row.t) (r : Row.t) :
  SQLite.largest_rowid (rs ++ [r])
  = Z.max (SQLite.largest_rowid rs) (Z.max (Row.id r) 0).
Proof.
  induction rs as [|r' rs IH]; simpl; [lia|]. rewrite IH. lia.
Qed.

Lemma largest_rowid_filter (f : Row.t -> bool) (rs : list Row.t) :
  SQLite.largest_rowid (filter f rs) <= SQLite.largest_rowid rs.
Proof.
  induction rs as [|r rs IH]; simpl; [lia|].
  destruct (f r); simpl; lia.
Qed.

Lemma largest_rowid_nonneg (rs : list Row.t) : 0 <= SQLite.largest_rowid rs.
Proof. induction rs as [|r rs IH]; simpl; lia. Qed.

(** One action on a started application whose host calls go through:
    the table stays, the plan stays empty, and an add with a valid date
    hands out exactly one id when the table can give one. *)
Lemma perform_quiet (a : Action) (w : World) (t : SQLite.Table) :
  SQLite.reminders (db w) = Some t ->
  faults w = [] ->
  valid_form a = true ->
  SQLite.next_rowid t + Z.of_nat (count_adds [a]) <= SQLite.maxRowid + 1 ->
  exists t',
    SQLite.reminders (db (after (perform a) w)) = Some t'
    /\ faults (after (perform a) w) = []
    /\ SQLite.next_rowid t'
       <= SQLite.next_rowid t + Z.of_nat (count_adds [a])
    /\ List.length (assigned_ids (events (perform a) w)) = count_adds [a].
Proof.
  intros Htable Hplan Hvalid Hroom.
  open_world w. cbn in Htable, Hplan. subst tb fl.
  destruct a as [title message [ms|] | id | ]; try discriminate Hvalid.
  - unfold_app. capacity.
    + observe. eexists. repeat split.
      unfold SQLite.next_rowid at 1. cbn.
      rewrite largest_rowid_snoc. cbn.
      pose proof (largest_rowid_nonneg (SQLite.rows t)) as Hb.
      unfold SQLite.next_rowid in *. lia.
    + apply Z.leb_gt in Hcap. cbn in Hroom. lia.
  - observe. eexists. repeat split.
    unfold SQLite.next_rowid. cbn.
    pose proof (largest_rowid_filter (SQLite.keeps id) (SQLite.rows t)). lia.
  - observe. exists t. repeat split. lia.
Qed.

Lemma history_counts_adds (acts : list Action) :
  forall (w : World) (t : SQLite.Table),
    SQLite.reminders (db w) = Some t ->
    faults w = [] ->
    forallb valid_form acts = true ->
    SQLite.next_rowid t + Z.of_nat (count_adds acts) <= SQLite.maxRowid + 1 ->
    List.length (assigned_ids (history acts w)) = count_adds acts.
Proof.
  induction acts as [|a acts IH]; intros w t Htable Hplan Hvalid Hroom.
  - unfold history. simpl. rewrite skipn_length_self. reflexivity.
  - simpl in Hvalid. apply andb_true_iff in Hvalid.
    destruct Hvalid as [Ha Hacts].
    assert (Hsplit : count_adds (a :: acts)
                     = (count_adds [a] + count_adds acts)%nat)
      by (destruct a; reflexivity).
    destruct (perform_quiet a w t Htable Hplan Ha)
      as (t' & Ht' & Hp' & Hn & Hlen); [lia|].
    rewrite history_cons, assigned_ids_app, length_app, Hlen, Hsplit.
    f_equal. apply (IH _ t' Ht' Hp' Hacts). lia.
Qed.

(** The sequence entry dominates the stored rowids on a new install, and
    every action keeps it so. *)
Lemma install_store_wf (plan : list (option Error)) : store_wf (install plan).
Proof. intros r H. contradiction H. Qed.

Lemma perform_keeps_store_wf (a : Action) (w : World) :
  store_wf w -> store_wf (after (perform a) w).
Proof.
  unfold store_wf, seq_of.
  destruct a as [title message [ms|] | id | ]; open_world w.
  - split_table; [ do 3 next_call | next_call ].
    all: unfold_app; capacity; observe.
    all: intros H r Hin; try solve [exact (H r Hin)].
    all: apply in_app_or in Hin; destruct Hin as [Hin | [<- | []]].
    all: try specialize (H r Hin).
    all: pose proof (next_rowid_above_seq t); cbn; lia.
  - observe. intros H. exact H.
  - split_table; [ do 3 next_call | next_call ].
    all: observe.
    all: intros H r Hin; try solve [exact (H r Hin)].
    all: apply filter_In in Hin; destruct Hin as [Hin _]; exact (H r Hin).
  - split_table; next_call.
    all: observe.
    all: intros H r Hin; try solve [exact (H r Hin)].
    all: contradiction Hin.
Qed.

Lemma run_keeps_store_wf (acts : list Action) :
  forall w : World, store_wf w -> store_wf (run acts w).
Proof.
  induction acts as [|a acts IH]; intros w H; simpl; [exact H|].
  apply IH. apply perform_keeps_store_wf. exact H.
Qed.

(** What one action does to the stored rows: nothing, and then it hands
    out no id; or it appends one row, under the one id it hands out, an
    id that no stored row had; or, for a delete, it drops the rows of
    the id. *)
Lemma perform_store_step (a : Action) (w : World) :
  (stored (after (perform a) w) = stored w
   /\ assigned_ids (events (perform a) w) = [])
  \/ (exists k title message date,
        stored (after (perform a) w)
        = stored w ++ [Row.mk k title message date]
        /\ assigned_ids (events (perform a) w) = [k]
        /\ ~ In k (map Row.id (stored w)))
  \/ (exists id,
        a = Delete id
        /\ stored (after (perform a) w)
           = filter (SQLite.keeps id) (stored w)
        /\ assigned_ids (events (perform a) w) = []).
Proof.
  destruct a as [title message [ms|] | id | ]; open_world w.
  - split_table; [ do 3 next_call | next_call ].
    all: unfold_app; capacity; observe.
    all: try solve [left; split; reflexivity].
    all: right; left; do 4 eexists.
    all: split; [reflexivity|]; split; [reflexivity|].
    all: apply next_rowid_unused.
  - observe. left; split; reflexivity.
  - split_table; [ do 3 next_call | next_call ].
    all: observe.
    all: try solve [left; split; reflexivity].
    all: right; right; eexists; repeat split; reflexivity.
  - split_table; next_call.
    all: observe.
    all: left; split; reflexivity.
Qed.

(** A stored id that no later action deletes stays stored. *)
Lemma run_keeps_undeleted (acts : list Action) :
  forall (w : World) (k : Z),
    In k (map Row.id (stored w)) ->
    ~ In k (deletes_of acts) ->
    In k (map Row.id (stored (run acts w))).
Proof.
  induction acts as [|a acts IH]; intros w k Hin Hdel; [exact Hin|].
  simpl. apply IH.
  - destruct (perform_store_step a w)
      as [[E _] | [(k' & t & m & d & E & _) | (id & -> & E & _)]];
      rewrite E.
    + exact Hin.
    + rewrite map_app. apply in_or_app. left. exact Hin.
    + apply in_map_iff in Hin. destruct Hin as (r & Hid & Hin).
      apply in_map_iff. exists r. split; [exact Hid|].
      apply filter_In. split; [exact Hin|].
      unfold SQLite.keeps. rewrite Hid.
      destruct (Z.eqb_spec k id) as [-> | Hne]; [|reflexivity].
      exfalso. apply Hdel. simpl. left. reflexivity.
  - intros Hlater. apply Hdel.
    unfold deletes_of. simpl. apply in_or_app. right. exact Hlater.
Qed.

(** Every id handed out along a run labels a stored row at the end of
    the run, unless the run deletes that id. *)
Lemma run_stores_assigned_ids (acts : list Action) :
  forall (w : World) (k : Z),
    In k (assigned_ids (history acts w)) ->
    ~ In k (deletes_of acts) ->
    In k (map Row.id (stored (run acts w))).
Proof.
  induction acts as [|a acts IH]; intros w k Hin Hdel.
  - unfold history in Hin. simpl in Hin.
    rewrite skipn_length_self in Hin. contradiction Hin.
  - assert (Hlater : ~ In k (deletes_of acts)).
    { intros H. apply Hdel. unfold deletes_of. simpl.
      apply in_or_app. right. exact H. }
    rewrite history_cons, assigned_ids_app in Hin.
    apply in_app_or in Hin. simpl. destruct Hin as [Hin | Hin].
    + apply run_keeps_undeleted; [|exact Hlater].
      destruct (perform_store_step a w)
        as [[_ E] | [(k' & t & m & d & Es & E & _) | (id & _ & _ & E)]];
        rewrite E in Hin; try contradiction Hin.
      destruct Hin as [<- | []].
      rewrite Es, map_app. apply in_or_app. right. left. reflexivity.
    + apply IH; assumption.
Qed.

(** Every row stored at the end of a run was stored at its start or
    carries an id handed out along the run. *)
Lemma run_stored_rows_origin (acts : list Action) :
  forall (w : World) (r : Row.t),
    In r (stored (run acts w)) ->
    In r (stored w) \/ In (Row.id r) (assigned_ids (history acts w)).
Proof.
  induction acts as [|a acts IH]; intros w r Hin; [left; exact Hin|].
  simpl in Hin. rewrite history_cons, assigned_ids_app.
  destruct (IH _ _ Hin) as [Hstep | Hlater].
  - destruct (perform_store_step a w)
      as [[Es E] | [(k & t & m & d & Es & E & _) | (id & _ & Es & E)]];
      rewrite Es in Hstep; rewrite E.
    + left. exact Hstep.
    + apply in_app_or in Hstep. destruct Hstep as [Hold | [<- | []]].
      * left. exact Hold.
      * right. left. reflexivity.
    + left. apply filter_In in Hstep. exact (proj1 Hstep).
  - right. apply in_or_app. right. exact Hlater.
Qed.

(** Without deletes, the stored ids at the end of a run are the stored
    ids at its start followed by the ids handed out, in that order. *)
Lemma run_appends_assigned_ids (acts : list Action) :
  forall w : World,
    deletes_of acts = [] ->
    map Row.id (stored (run acts w))
    = map Row.id (stored w) ++ assigned_ids (history acts w).
Proof.
  induction acts as [|a acts IH]; intros w Hnone.
  - unfold history. simpl. rewrite skipn_length_self, app_nil_r. reflexivity.
  - assert (Hlater : deletes_of acts = []).
    { unfold deletes_of in *. simpl in Hnone.
      apply app_eq_nil in Hnone. exact (proj2 Hnone). }
    simpl. rewrite IH by exact Hlater.
    rewrite history_cons, assigned_ids_app, app_assoc. f_equal.
    destruct (perform_store_step a w)
      as [[Es E] | [(k & t & m & d & Es & E & _) | (id & -> & _ & _)]].
    + rewrite Es, E, app_nil_r. reflexivity.
    + rewrite Es, E, map_app. reflexivity.
    + discriminate Hnone.
Qed.

Lemma run_keeps_ids_distinct (acts : list Action) :
  forall w : World,
    NoDup (map Row.id (stored w)) ->
    NoDup (map Row.id (stored (run acts w))).
Proof.
  induction acts as [|a acts IH]; intros w H; [exact H|].
  simpl. apply IH.
  destruct (perform_store_step a w)
    as [[E _] | [(k & t & m & d & E & _ & Hnew) | (id & _ & E & _)]];
    rewrite E.
  - exact H.
  - rewrite map_app. simpl.
    apply NoDup_app; [exact H | repeat constructor; intros [] | ].
    intros k' Hin [<- | []]. exact (Hnew Hin).
  - apply NoDup_ids_filter. exact H.
Qed.

(** C5: along any run of adds, deletes and restarts, whatever fails, the
    ids the store hands out are strictly increasing, hence pairwise
    distinct and never handed out twice, deletions or not; each is above
    the sequence entry the run started from, and so above every id
    stored before the run when the sequence dominates them. These are
    the ids of the reminders: every row stored at the end of the run was
    stored before it or carries an id handed out along it, every id
    handed out that the run does not delete labels a stored row, stored
    ids stay pairwise distinct, and without deletes the stored ids are
    the former ones followed by the ids handed out. When the table
    exists, the host calls go through, the dates are valid and the table
    has room, a run hands out exactly as many ids as it has adds. *)
Theorem store_ids_increase (acts : list Action) (w : World) :
  let ids := assigned_ids (history acts w) in
  StronglySorted Z.lt ids
  /\ NoDup ids
  /\ Forall (fun k => seq_of w < k) ids
  /\ (store_wf w ->
      Forall (fun k => forall r, In r (stored w) -> Row.id r < k) ids)
  /\ (forall t,
        SQLite.reminders (db w) = Some t ->
        faults w = [] ->
        forallb valid_form acts = true ->
        SQLite.next_rowid t + Z.of_nat (count_adds acts)
        <= SQLite.maxRowid + 1 ->
        List.length ids = count_adds acts)
  /\ (forall r,
        In r (stored (run acts w)) ->
        In r (stored w) \/ In (Row.id r) ids)
  /\ (forall k,
        In k ids -> ~ In k (deletes_of acts) ->
        In k (map Row.id (stored (run acts w))))
  /\ (NoDup (map Row.id (stored w)) ->
      NoDup (map Row.id (stored (run acts w))))
  /\ (deletes_of acts = [] ->
      map Row.id (stored (run acts w)) = map Row.id (stored w) ++ ids).
Proof.
  intros ids. subst ids.
  destruct (history_ids_increase acts w) as [Hsorted Habove].
  split; [exact Hsorted|].
  split; [apply strictly_sorted_NoDup; exact Hsorted|].
  split; [exact Habove|].
  split.
  { intros Hwf. eapply Forall_impl; [|exact Habove].
    intros k Hk r Hin. specialize (Hwf r Hin). simpl in Hk. lia. }
  split; [intros t; apply history_counts_adds|].
  split; [apply run_stored_rows_origin|].
  split; [apply run_stores_assigned_ids|].
  split; [apply run_keeps_ids_distinct|].
  apply run_appends_assigned_ids.
Qed.

Lemma store_ids_increase_witness :
  assigned_ids
    (history [Add "Pay rent" "Due today" year2100; Delete 1;
              Add "" "" (JS.TimeValue 0)]
       (started []))
  = [1; 2]
  /\ List.length
       (assigned_ids
          (history [Add "Pay rent" "Due today" year2100; Delete 1;
                    Add "" "" (JS.TimeValue 0)]
             (started [])))
     = 2%nat
  /\ In 2 (map Row.id
             (stored (run [Add "Pay rent" "Due today" year2100; Delete 1;
                           Add "" "" (JS.TimeValue 0)]
                        (started []))))
  /\ map Row.id
       (stored (run [Add "Pay rent" "Due today" year2100;
                     Add "" "" (JS.TimeValue 0)]
                  (started [])))
     = [1; 2].
Proof.
  split; [vm_compute; reflexivity|].
  destruct (store_ids_increase
              [Add "Pay rent" "Due today" year2100; Delete 1;
               Add "" "" (JS.TimeValue 0)]
              (started []))
    as (_ & _ & _ & _ & Hcount & _ & Hstored & _).
  split; [|split].
  - apply (Hcount {| SQLite.rows := []; SQLite.seq := 0 |}).
    + reflexivity.
    + reflexivity.
    + reflexivity.
    + vm_compute. discriminate.
  - apply Hstored.
    + vm_compute. right. left. reflexivity.
    + vm_compute. intros [H | []]. discriminate H.
  - destruct (store_ids_increase
                [Add "Pay rent" "Due today" year2100;
                 Add "" "" (JS.TimeValue 0)]
                (started []))
      as (_ & _ & _ & _ & _ & _ & _ & _ & Happend).
    rewrite (Happend eq_refl). vm_compute. reflexivity.
Defined.

(** * Further properties of the screen *)

Ltac delete_cases w :=
  open_world w;
  split_table; [ do 3 next_call | next_call ];
  observe.

Ltac load_cases w :=
  open_world w;
  split_table; next_call;
  observe.

(** ** What the flows leave alone *)

(** No flow resets or changes the form: title, message and date are
    after it what they were before, whatever fails. *)
Theorem flows_keep_form (id : Z) (w : World) :
  form (after initializeDatabase w) = form w
  /\ form (after loadReminders w) = form w
  /\ form (after addReminder w) = form w
  /\ form (after (deleteReminder id) w) = form w.
Proof.
  unfold form. repeat apply conj.
  - load_cases w; reflexivity.
  - load_cases w; reflexivity.
  - add_cases w; reflexivity.
  - delete_cases w; reflexivity.
Qed.

(** Each flow keeps to its own calls: loading only reads; adding never
    removes a row nor cancels a notification; deleting never inserts a
    row nor arms a notification; initializing touches neither rows nor
    notifications. *)
Theorem flows_keep_to_their_calls (id : Z) (w : World) :
  existsb is_store_write (calls loadReminders w) = false
  /\ existsb is_notification_call (calls loadReminders w) = false
  /\ existsb is_removal_call (calls addReminder w) = false
  /\ existsb is_cancel_call (calls addReminder w) = false
  /\ existsb is_insert_call (calls (deleteReminder id) w) = false
  /\ existsb is_arming_call (calls (deleteReminder id) w) = false
  /\ existsb is_notification_call (calls initializeDatabase w) = false
  /\ stored (after initializeDatabase w) = stored w
  /\ pending (after initializeDatabase w) = pending w.
Proof.
  repeat apply conj.
  - load_cases w; reflexivity.
  - load_cases w; reflexivity.
  - add_cases w; reflexivity.
  - add_cases w; reflexivity.
  - delete_cases w; reflexivity.
  - delete_cases w; reflexivity.
  - load_cases w; reflexivity.
  - load_cases w; reflexivity.
  - load_cases w; reflexivity.
Qed.

(** ** Refreshing *)

(** [loadReminders] is read-only on the device: database and scheduler
    are untouched whatever happens; the list on screen becomes the
    stored rows when the query resolves, and stays what it was when the
    query is rejected. *)
Theorem loadReminders_reads_only (w : World) :
  db (after loadReminders w) = db w
  /\ host (after loadReminders w) = host w
  /\ (rejections (events loadReminders w) = [] ->
      listed (after loadReminders w) = stored w)
  /\ (rejections (events loadReminders w) <> [] ->
      listed (after loadReminders w) = listed w).
Proof.
  repeat apply conj.
  - load_cases w; reflexivity.
  - load_cases w; reflexivity.
  - load_cases w; intros H; try discriminate H; reflexivity.
  - load_cases w; intros H; try reflexivity; contradiction H; reflexivity.
Qed.

Lemma loadReminders_reads_only_witness :
  listed (after loadReminders
            (set_ui (State.mk [] "" "" (JS.TimeValue 0))
               (run [Add "Pay rent" "Due today" year2100] (started []))))
  = [Row.mk 1 "Pay rent" "Due today" "2100-01-01T00:00:00.000Z"].
Proof.
  destruct (loadReminders_reads_only
              (set_ui (State.mk [] "" "" (JS.TimeValue 0))
                 (run [Add "Pay rent" "Due today" year2100] (started []))))
    as (_ & _ & H & _).
  rewrite H; reflexivity.
Defined.

(** Whenever the query that ends a flow resolves, the list on screen
    and the stored rows are the same afterwards: a completed add or
    delete never leaves the screen behind the store. *)
Theorem resolved_refresh_syncs (id : Z) (w : World) (rs : list Row.t) :
  (In (GetAll, Resolved (VRows rs)) (events loadReminders w) ->
   listed (after loadReminders w) = rs
   /\ stored (after loadReminders w) = rs)
  /\ (In (GetAll, Resolved (VRows rs)) (events addReminder w) ->
      listed (after addReminder w) = rs
      /\ stored (after addReminder w) = rs)
  /\ (In (GetAll, Resolved (VRows rs)) (events (deleteReminder id) w) ->
      listed (after (deleteReminder id) w) = rs
      /\ stored (after (deleteReminder id) w) = rs).
Proof.
  repeat apply conj.
  - load_cases w; intros H; pick_membership H.
    all: try injection H as <-; split; reflexivity.
  - add_cases w; intros H; pick_membership H.
    all: try injection H as <-; split; reflexivity.
  - delete_cases w; intros H; pick_membership H.
    all: try injection H as <-; split; reflexivity.
Qed.

Lemma resolved_refresh_syncs_witness :
  listed (after (deleteReminder 1)
            (run [Add "Pay rent" "Due today" year2100] (started [])))
  = []
  /\ stored (after (deleteReminder 1)
               (run [Add "Pay rent" "Due today" year2100] (started [])))
     = [].
Proof.
  apply (proj2 (proj2 (resolved_refresh_syncs 1
                         (run [Add "Pay rent" "Due today" year2100]
                            (started []))
                         []))).
  vm_compute. right. right. left. reflexivity.
Defined.

(** ** Deleting *)

(** When the cancellation is rejected, the row is already gone from the
    store, the list on screen is not read again and still shows what it
    showed, the scheduler holds what it held, and exactly one line is
    printed, under the message of the delete flow. *)
Theorem cancel_failure_leaves_stale_list (id : Z) (w : World) (e : Error) :
  In (CancelScheduled (JS.toString id), Rejected e)
     (events (deleteReminder id) w) ->
  stored (after (deleteReminder id) w) = filter (SQLite.keeps id) (stored w)
  /\ listed (after (deleteReminder id) w) = listed w
  /\ pending (after (deleteReminder id) w) = pending w
  /\ printed (deleteReminder id) w
     = [Caught "Error while deleting reminder: " e]
  /\ existsb is_refresh_call (calls (deleteReminder id) w) = false.
Proof.
  delete_cases w; intros H; pick_membership H.
  all: try injection H as <-.
  all: repeat split; reflexivity.
Qed.

Lemma cancel_failure_leaves_stale_list_witness :
  stored (after (deleteReminder 1)
            (set_faults [None; Some (HostFailure 9)]
               (run [Add "Pay rent" "Due today" year2100] (started []))))
  = []
  /\ listed (after (deleteReminder 1)
               (set_faults [None; Some (HostFailure 9)]
                  (run [Add "Pay rent" "Due today" year2100] (started []))))
     = [Row.mk 1 "Pay rent" "Due today" "2100-01-01T00:00:00.000Z"].
Proof.
  destruct (cancel_failure_leaves_stale_list 1
              (set_faults [None; Some (HostFailure 9)]
                 (run [Add "Pay rent" "Due today" year2100] (started [])))
              (HostFailure 9)) as (Hstored & Hlisted & _).
  - vm_compute. right. left. reflexivity.
  - split; [exact Hstored | exact Hlisted].
Defined.

(** The delete flow removes the rows with the given id and no other:
    whatever fails, the store afterwards is the store before or the
    store before without the rows of that id, so a row with another id
    is never lost, no row is changed or reordered, and none is added. *)
Theorem deleteReminder_removes_only_that_id (id : Z) (w : World) :
  (stored (after (deleteReminder id) w) = stored w
   \/ stored (after (deleteReminder id) w)
      = filter (SQLite.keeps id) (stored w))
  /\ (forall r,
        In r (stored w) -> Row.id r <> id ->
        In r (stored (after (deleteReminder id) w)))
  /\ (forall r,
        In r (stored (after (deleteReminder id) w)) -> In r (stored w)).
Proof.
  assert (Hshape :
            stored (after (deleteReminder id) w) = stored w
            \/ stored (after (deleteReminder id) w)
               = filter (SQLite.keeps id) (stored w)).
  { delete_cases w; auto. }
  split; [exact Hshape|]. split.
  - intros r Hin Hid. destruct Hshape as [-> | ->]; [exact Hin|].
    apply filter_In. split; [exact Hin|].
    unfold SQLite.keeps. destruct (Z.eqb_spec (Row.id r) id); [contradiction|].
    reflexivity.
  - intros r Hin. destruct Hshape as [E | E]; rewrite E in Hin; [exact Hin|].
    apply filter_In in Hin. exact (proj1 Hin).
Qed.

Lemma deleteReminder_removes_only_that_id_witness :
  In (Row.mk 2 "" "" "1970-01-01T00:00:00.000Z")
    (stored (after (deleteReminder 1)
               (run [Add "Pay rent" "Due today" year2100;
                     Add "" "" (JS.TimeValue 0)] (started [])))).
Proof.
  apply (proj1 (proj2 (deleteReminder_removes_only_that_id 1
                         (run [Add "Pay rent" "Due today" year2100;
                               Add "" "" (JS.TimeValue 0)] (started []))))).
  - vm_compute. right. left. reflexivity.
  - vm_compute. discriminate.
Defined.

(** ** Arming *)

(** Whenever the arming call of the add flow resolves, the notification
    it leaves pending carries the title of the form as its title, the
    message of the form as its body, sound on, and the [Date] of the
    form itself as its trigger; it is the last of the pending ones, the
    others being those that were pending under another tag. A tap on it
    shows the title and the message. *)
Theorem add_arms_with_form_content (w : World) (req : Notifications.Request)
    (s : string) :
  In (ScheduleNotification req, Resolved (VIdentifier s))
     (events addReminder w) ->
  let n :=
    Notifications.mkScheduled s
      (Notifications.mkContent (State.title (ui w)) (State.message (ui w))
         true "./assets/icon.png")
      (State.date (ui w)) in
  pending (after addReminder w)
  = filter (Notifications.untagged s) (pending w) ++ [n]
  /\ responseListener n = (State.title (ui w), State.message (ui w))
  /\ Notifications.content req = Notifications.what n
  /\ Notifications.trigger req = State.date (ui w).
Proof.
  add_cases w; intros H; pick_membership H.
  all: try injection H as <- <-.
  all: repeat split; reflexivity.
Qed.

Lemma add_arms_with_form_content_witness :
  pending (after addReminder
             (after (perform (Add "Pay rent" "Due today" year2100))
                (started [])))
  = [Notifications.mkScheduled (uuid 0)
       (Notifications.mkContent "Pay rent" "Due today" true
          "./assets/icon.png") year2100;
     Notifications.mkScheduled (uuid 1)
       (Notifications.mkContent "Pay rent" "Due today" true
          "./assets/icon.png") year2100].
Proof.
  destruct (add_arms_with_form_content
              (after (perform (Add "Pay rent" "Due today" year2100))
                 (started []))
              (Notifications.mkRequest None
                 (Notifications.mkContent "Pay rent" "Due today" true
                    "./assets/icon.png") year2100)
              (uuid 1)) as (Hpending & _).
  - vm_compute. right. right. left. reflexivity.
  - rewrite Hpending. vm_compute. reflexivity.
Defined.

(** ** Notifications that no delete reaches *)

(** A delete flow drops at most the notifications tagged with the string
    form of its id; those under any other tag stay. *)
Lemma deleteReminder_pending (id : Z) (w : World) :
  pending (after (deleteReminder id) w) = pending w
  \/ pending (after (deleteReminder id) w)
     = filter (Notifications.untagged (JS.toString id)) (pending w).
Proof.
  delete_cases w; auto.
Qed.

(** Any number of deletes, whatever fails, leaves alone every pending
    notification as long as none is tagged with the string form of a
    deleted id; so the notifications armed by the add flow, which carry
    tags of the host, outlive the deletion of their reminders. *)
Theorem deletes_leave_other_tags_pending (acts : list Action) :
  forall w : World,
    only_deletes acts = true ->
    (forall id,
        In id (deletes_of acts) ->
        existsb (Notifications.tagged (JS.toString id)) (pending w) = false) ->
    pending (run acts w) = pending w.
Proof.
  induction acts as [|a acts IH]; intros w Honly Htags; [reflexivity|].
  destruct a as [ | id | ]; try discriminate Honly.
  simpl in Honly. simpl.
  assert (Hstep : pending (after (deleteReminder id) w) = pending w).
  { destruct (deleteReminder_pending id w) as [E | E]; [exact E|].
    rewrite E. apply filter_untagged_absent. apply Htags. left. reflexivity. }
  rewrite <- Hstep. apply IH; [exact Honly|].
  intros id' Hin. rewrite Hstep. apply Htags. right. exact Hin.
Qed.

Lemma deletes_leave_other_tags_pending_witness :
  pending (run [Delete 1; Delete 2; Delete 1]
             (run [Add "Pay rent" "Due today" year2100;
                   Add "" "" (JS.TimeValue 0)] (started [])))
  = pending (run [Add "Pay rent" "Due today" year2100;
                  Add "" "" (JS.TimeValue 0)] (started [])).
Proof.
  apply (deletes_leave_other_tags_pending [Delete 1; Delete 2; Delete 1]).
  - reflexivity.
  - intros id Hin. simpl in Hin.
    destruct Hin as [<- | [<- | [<- | []]]]; vm_compute; reflexivity.
Defined.

(** ** Edge cases of the flows *)

(** While the table does not exist (initialization was rejected or never
    ran), loading, adding and deleting change nothing on the device or on
    screen and arm or cancel nothing; each prints one line, and the error
    in it is "no such table" unless the host rejected the call for a
    reason of its own. *)
Theorem without_table_flows_only_log (id : Z) (w : World) (ms : Z) :
  SQLite.reminders (db w) = None ->
  State.date (ui w) = JS.TimeValue ms ->
  (db (after loadReminders w) = db w
   /\ host (after loadReminders w) = host w
   /\ ui (after loadReminders w) = ui w
   /\ exists e,
        printed loadReminders w
        = [Caught "Error while loading reminders: " e]
        /\ (planned_fault w = None -> e = NoSuchTable))
  /\ (db (after addReminder w) = db w
      /\ host (after addReminder w) = host w
      /\ ui (after addReminder w) = ui w
      /\ exists e,
           printed addReminder w
           = [Caught "Error while adding reminder: " e]
           /\ (planned_fault w = None -> e = NoSuchTable))
  /\ (db (after (deleteReminder id) w) = db w
      /\ host (after (deleteReminder id) w) = host w
      /\ ui (after (deleteReminder id) w) = ui w
      /\ exists e,
           printed (deleteReminder id) w
           = [Caught "Error while deleting reminder: " e]
           /\ (planned_fault w = None -> e = NoSuchTable)).
Proof.
  intros Htable Hdate.
  open_world w. cbn in Htable, Hdate. subst tb da.
  repeat apply conj.
  all: next_call; observe; try reflexivity.
  all: eexists; split; [reflexivity|].
  all: intros H; try reflexivity; discriminate H.
Qed.

Lemma without_table_flows_only_log_witness :
  printed addReminder (install [])
  = [Caught "Error while adding reminder: " NoSuchTable]
  /\ db (after addReminder (install [])) = db (install []).
Proof.
  destruct (without_table_flows_only_log 0 (install []) 0 eq_refl eq_refl)
    as (_ & (Hdb & _ & _ & e & Hprinted & He) & _).
  rewrite Hprinted, (He eq_refl). split; [reflexivity | exact Hdb].
Defined.

(** With an Invalid Date in the form, the add flow stops before it calls
    anything outside the component: the only call is the rejected
    [toISOString], one line is printed under the message of the add
    flow, and store, scheduler, screen and the plan of the host calls
    are what they were. *)
Theorem add_with_invalid_date_calls_nothing (w : World) :
  State.date (ui w) = JS.InvalidDate ->
  events addReminder w = [(ToISOString JS.InvalidDate, Rejected RangeError)]
  /\ printed addReminder w
     = [Caught "Error while adding reminder: " RangeError]
  /\ db (after addReminder w) = db w
  /\ host (after addReminder w) = host w
  /\ ui (after addReminder w) = ui w
  /\ faults (after addReminder w) = faults w.
Proof.
  intros Hdate. open_world w. cbn in Hdate. subst da.
  observe. repeat split; reflexivity.
Qed.

Lemma add_with_invalid_date_calls_nothing_witness :
  events addReminder
    (after (setDate JS.InvalidDate) (started [Some (HostFailure 1)]))
  = [(ToISOString JS.InvalidDate, Rejected RangeError)]
  /\ faults (after addReminder
               (after (setDate JS.InvalidDate)
                  (started [Some (HostFailure 1)])))
     = [Some (HostFailure 1)].
Proof.
  destruct (add_with_invalid_date_calls_nothing
              (after (setDate JS.InvalidDate)
                 (started [Some (HostFailure 1)])) eq_refl)
    as (Hevents & _ & _ & _ & _ & Hfaults).
  split; [exact Hevents | exact Hfaults].
Defined.

(** ** Which line is printed for which failure *)

(** The console lines of a flow are, in order, one line per rejected
    call, under the message of the function that catches it: a rejected
    query is printed as a loading error and a rejected arming call as a
    scheduling error even inside the add and delete flows, whose own
    message is used for their other calls. Initialization prints its
    success line, or one line for the rejected statement. *)
Theorem console_lines_name_the_catching_function (id : Z) (w : World) :
  printed loadReminders w
  = error_lines "Error while loading reminders: " (events loadReminders w)
  /\ printed addReminder w
     = error_lines "Error while adding reminder: " (events addReminder w)
  /\ printed (deleteReminder id) w
     = error_lines "Error while deleting reminder: "
         (events (deleteReminder id) w)
  /\ printed initializeDatabase w
     = match rejections (events initializeDatabase w) with
       | [] => [Info "Database initialized"]
       | _ :: _ =>
           error_lines "Error while initializing database: "
             (events initializeDatabase w)
       end.
Proof.
  repeat apply conj.
  - load_cases w; reflexivity.
  - add_cases w; reflexivity.
  - delete_cases w; reflexivity.
  - load_cases w; reflexivity.
Qed.

(** ** Sessions on the screen *)

(** A property of the world kept by typing, by picking a date and by
    the add and delete flows is kept by every session. *)
Lemma session_preserves (P : World -> Prop) :
  (forall w text, P w -> P (after (setTitle text) w)) ->
  (forall w text, P w -> P (after (setMessage text) w)) ->
  (forall w d, P w -> P (after (setDate d) w)) ->
  (forall w, P w -> P (after addReminder w)) ->
  (forall w id, P w -> P (after (deleteReminder id) w)) ->
  forall evs s, P (world s) -> P (world (session evs s)).
Proof.
  intros Htitle Hmessage Hdate Hadd Hdelete.
  induction evs as [|ev evs IH]; intros s Hs; [exact Hs|].
  simpl. apply IH.
  destruct ev as [text | text | | | sel | sel | | index]; simpl; auto.
  - destruct (showDatePicker s); [|exact Hs].
    destruct sel; simpl; auto.
  - destruct (showTimePicker s); [|exact Hs].
    destruct sel; simpl; auto.
  - destruct (nth_error (listed (world s)) index); simpl; auto.
Qed.

(** ** Keys of the list *)

(** On the integers a number holds exactly, the decimal string
    determines the integer. *)
Lemma toString_injective (a b : Z) :
  JS.isSafeInteger a = true ->
  JS.isSafeInteger b = true ->
  JS.toString a = JS.toString b -> a = b.
Proof.
  unfold JS.toString. intros _ _ H.
  apply DecimalZ.to_int_inj.
  assert (Hparse : forall z,
             NilZero.int_of_string (NilZero.string_of_int (Z.to_int z))
             = Some (Z.to_int z)).
  { intros z. apply NilZero.isi.
    - destruct z as [|p|p]; simpl; try discriminate.
      intros E. injection E as E.
      exact (DecimalPos.Unsigned.to_uint_nonnil p E).
    - destruct z as [|p|p]; simpl; try discriminate.
      intros E. injection E as E.
      exact (DecimalPos.Unsigned.to_uint_nonnil p E). }
  pose proof (Hparse a) as Ha. rewrite H, Hparse in Ha.
  injection Ha as Ha. symmetry. exact Ha.
Qed.

Lemma NoDup_map_toString (ks : list Z) :
  Forall (fun k => JS.isSafeInteger k = true) ks ->
  NoDup ks -> NoDup (map JS.toString ks).
Proof.
  intros Hsafe Hnodup.
  induction Hnodup as [|k ks Hnotin Hnodup IH]; simpl; constructor.
  - intros Hin. apply in_map_iff in Hin. destruct Hin as (k' & Hk & Hin).
    inversion Hsafe as [|? ? Hk_safe Hks_safe]; subst.
    rewrite Forall_forall in Hks_safe.
    apply toString_injective in Hk; auto. subst k'. exact (Hnotin Hin).
  - apply IH. inversion Hsafe; assumption.
Qed.

Lemma addReminder_keeps_distinct_ids (w : World) :
  distinct_ids w -> distinct_ids (after addReminder w).
Proof.
  unfold distinct_ids.
  add_cases w; intros [Hs Hl]; split; auto using NoDup_ids_insert.
Qed.

Lemma deleteReminder_keeps_distinct_ids (w : World) (id : Z) :
  distinct_ids w -> distinct_ids (after (deleteReminder id) w).
Proof.
  unfold distinct_ids.
  delete_cases w; intros [Hs Hl]; split; auto using NoDup_ids_filter.
Qed.

(** ** Ids on screen and ids to come *)

Ltac below_seq Hs Hl r Hin t :=
  try solve [exact (Hs r Hin)];
  try solve [exact (Hl r Hin)];
  try (apply in_app_or in Hin; destruct Hin as [Hin | [<- | []]]);
  try (apply filter_In in Hin; destruct Hin as [Hin _]);
  try (pose proof (Hs r Hin));
  try (pose proof (Hl r Hin));
  try (pose proof (next_rowid_above_seq t));
  cbn in *; lia.

Lemma addReminder_keeps_ids_below_seq (w : World) :
  ids_below_seq w -> ids_below_seq (after addReminder w).
Proof.
  unfold ids_below_seq, store_wf, seq_of.
  add_cases w; intros [Hs Hl]; split; intros r Hin.
  all: below_seq Hs Hl r Hin t.
Qed.

Lemma deleteReminder_keeps_ids_below_seq (w : World) (id : Z) :
  ids_below_seq w -> ids_below_seq (after (deleteReminder id) w).
Proof.
  unfold ids_below_seq, store_wf, seq_of.
  delete_cases w; intros [Hs Hl]; split; intros r Hin.
  all: below_seq Hs Hl r Hin t.
Qed.

Lemma addReminder_id_above_seq (w : World) (k : Z) :
  In k (assigned_ids (events addReminder w)) -> seq_of w < k.
Proof.
  unfold seq_of.
  add_cases w; intros H; pick_membership H.
  all: try contradiction.
  all: subst k; apply next_rowid_above_seq.
Qed.

Lemma addReminder_keeps_ids_from_one (w : World) :
  ids_from_one w -> ids_from_one (after addReminder w).
Proof.
  unfold ids_from_one.
  add_cases w; intros [Hs Hl]; split; intros r Hin.
  all: try solve [exact (Hs r Hin)]; try solve [exact (Hl r Hin)].
  all: apply in_app_or in Hin; destruct Hin as [Hin | [<- | []]];
       [exact (Hs r Hin)|].
  all: pose proof (largest_rowid_nonneg (SQLite.rows t));
       unfold SQLite.next_rowid; cbn; lia.
Qed.

Lemma deleteReminder_keeps_ids_from_one (w : World) (id : Z) :
  ids_from_one w -> ids_from_one (after (deleteReminder id) w).
Proof.
  unfold ids_from_one.
  delete_cases w; intros [Hs Hl]; split; intros r Hin.
  all: try solve [exact (Hs r Hin)]; try solve [exact (Hl r Hin)].
  all: apply filter_In in Hin; destruct Hin as [Hin _]; exact (Hs r Hin).
Qed.

(** The ids on screen are integers a number holds exactly as long as
    the sequence entry has not passed the largest of them. *)
Lemma listed_ids_safe (w : World) :
  ids_below_seq w -> ids_from_one w ->
  seq_of w <= JS.MAX_SAFE_INTEGER ->
  Forall (fun r => JS.isSafeInteger (Row.id r) = true) (listed w).
Proof.
  intros [_ Hbelow] [_ Hone] Hseq. apply Forall_forall. intros r Hin.
  specialize (Hbelow r Hin). specialize (Hone r Hin).
  unfold JS.isSafeInteger. apply andb_true_iff.
  unfold JS.MAX_SAFE_INTEGER in *.
  split; apply Z.leb_le; lia.
Qed.

(** In every session that starts with distinct ids, all from 1 and none
    above the sequence entry, whatever fails, as long as the sequence
    entry at the end has not passed the largest integer a number holds
    exactly: the ids on screen are such integers, the keys the list
    gives its rows ([item.id.toString()]) are pairwise distinct, and the
    stored rows keep distinct ids. *)
Theorem list_keys_stay_distinct (evs : list UiEvent) (s : Screen) :
  distinct_ids (world s) ->
  ids_below_seq (world s) ->
  ids_from_one (world s) ->
  seq_of (world (session evs s)) <= JS.MAX_SAFE_INTEGER ->
  Forall (fun r => JS.isSafeInteger (Row.id r) = true)
    (listed (world (session evs s)))
  /\ NoDup (map keyExtractor (listed (world (session evs s))))
  /\ NoDup (map Row.id (stored (world (session evs s)))).
Proof.
  intros Hdistinct Hbelow Hone Hseq.
  assert (Hinv : distinct_ids (world (session evs s))).
  { apply session_preserves; auto using addReminder_keeps_distinct_ids,
      deleteReminder_keeps_distinct_ids. }
  assert (Hinv2 : ids_below_seq (world (session evs s))).
  { apply session_preserves; auto using addReminder_keeps_ids_below_seq,
      deleteReminder_keeps_ids_below_seq. }
  assert (Hinv3 : ids_from_one (world (session evs s))).
  { apply session_preserves; auto using addReminder_keeps_ids_from_one,
      deleteReminder_keeps_ids_from_one. }
  pose proof (listed_ids_safe _ Hinv2 Hinv3 Hseq) as Hsafe.
  destruct Hinv as [Hstored Hlisted].
  split; [exact Hsafe|]. split; [|exact Hstored].
  unfold keyExtractor.
  rewrite <- (map_map Row.id JS.toString).
  apply NoDup_map_toString; [|exact Hlisted].
  apply Forall_map. exact Hsafe.
Qed.

Lemma list_keys_stay_distinct_witness :
  NoDup (map keyExtractor
           (listed (world (session [PressAdd; ChangeTitle "Pay rent";
                                    PressAdd; PressBin 0; PressAdd]
                             (mkScreen (started []) false false))))).
Proof.
  destruct (list_keys_stay_distinct
              [PressAdd; ChangeTitle "Pay rent"; PressAdd; PressBin 0;
               PressAdd]
              (mkScreen (started []) false false)) as (_ & Hkeys & _).
  - split; vm_compute; constructor.
  - split; intros r Hin; vm_compute in Hin; contradiction Hin.
  - split; intros r Hin; vm_compute in Hin; contradiction Hin.
  - vm_compute. discriminate.
  - exact Hkeys.
Defined.

Lemma addReminder_stored (w : World) :
  stored (after addReminder w) = stored w
  \/ exists t iso,
       SQLite.reminders (db w) = Some t
       /\ stored (after addReminder w)
          = stored w
            ++ [Row.mk (SQLite.next_rowid t) (State.title (ui w))
                  (State.message (ui w)) iso]
       /\ seq_of (after addReminder w) = SQLite.next_rowid t.
Proof.
  unfold seq_of.
  add_cases w; auto.
  all: right; do 2 eexists; repeat split; reflexivity.
Qed.

Lemma deleteReminder_stored (id : Z) (w : World) :
  stored (after (deleteReminder id) w) = stored w
  \/ stored (after (deleteReminder id) w)
     = filter (SQLite.keeps id) (stored w).
Proof.
  delete_cases w; auto.
Qed.

(** In every session that starts with ids from 1 and none above the
    sequence entry, whatever fails, take any row on screen, stale or
    not, and press add: if the add stores a row and the sequence entry
    has not passed the largest integer a number holds exactly, the new
    row and the row on screen carry such integers as ids, the id of the
    new row is the larger, and pressing the bin of the row on screen
    afterwards, whatever fails then, leaves the new row in the store. *)
Theorem new_ids_exceed_ids_on_screen
    (evs : list UiEvent) (s : Screen) (r r' : Row.t) :
  ids_below_seq (world s) ->
  ids_from_one (world s) ->
  let w := world (session evs s) in
  let w1 := after addReminder w in
  seq_of w1 <= JS.MAX_SAFE_INTEGER ->
  In r (listed w) ->
  In r' (stored w1) ->
  ~ In r' (stored w) ->
  JS.isSafeInteger (Row.id r) = true
  /\ JS.isSafeInteger (Row.id r') = true
  /\ Row.id r < Row.id r'
  /\ In r' (stored (after (deleteReminder (Row.id r)) w1)).
Proof.
  intros Hbelow Hone w w1 Hseq Hr Hr' Hnew.
  assert (Hinv : ids_below_seq w).
  { apply session_preserves; auto using addReminder_keeps_ids_below_seq,
      deleteReminder_keeps_ids_below_seq. }
  assert (Hinv1 : ids_from_one w).
  { apply session_preserves; auto using addReminder_keeps_ids_from_one,
      deleteReminder_keeps_ids_from_one. }
  destruct Hinv as [_ Hlisted]. destruct Hinv1 as [_ Hlisted1].
  specialize (Hlisted r Hr). specialize (Hlisted1 r Hr).
  subst w1.
  destruct (addReminder_stored w) as [E | (t & iso & Ht & E & Eseq)].
  { rewrite E in Hr'. contradiction. }
  rewrite E in Hr'. apply in_app_or in Hr'.
  destruct Hr' as [Hold | [<- | []]]; [contradiction|].
  rewrite Eseq in Hseq.
  assert (Hlt : Row.id r < SQLite.next_rowid t).
  { pose proof (next_rowid_above_seq t) as Habove.
    unfold seq_of in Hlisted. rewrite Ht in Hlisted. lia. }
  unfold JS.isSafeInteger, JS.MAX_SAFE_INTEGER in *. cbn [Row.id].
  split; [apply andb_true_iff; split; apply Z.leb_le; lia|].
  split; [apply andb_true_iff; split; apply Z.leb_le; lia|].
  split; [exact Hlt|].
  destruct (deleteReminder_stored (Row.id r) (after addReminder w))
    as [Ed | Ed]; rewrite Ed, E.
  - apply in_or_app. right. left. reflexivity.
  - apply filter_In. split; [apply in_or_app; right; left; reflexivity|].
    unfold SQLite.keeps. cbn [Row.id].
    destruct (Z.eqb_spec (SQLite.next_rowid t) (Row.id r)); [lia|].
    reflexivity.
Qed.

Lemma new_ids_exceed_ids_on_screen_witness :
  In (Row.mk 2 "Pay rent" "" "1970-01-01T00:00:00.000Z")
    (stored
       (after (deleteReminder 1)
          (after addReminder
             (world (session [PressAdd; ChangeTitle "Pay rent"]
                       (mkScreen (started []) false false)))))).
Proof.
  destruct (new_ids_exceed_ids_on_screen
              [PressAdd; ChangeTitle "Pay rent"]
              (mkScreen (started []) false false)
              (Row.mk 1 "" "" "1970-01-01T00:00:00.000Z")
              (Row.mk 2 "Pay rent" "" "1970-01-01T00:00:00.000Z"))
    as (_ & _ & _ & Hkept).
  - split; intros r Hin; vm_compute in Hin; contradiction Hin.
  - split; intros r Hin; vm_compute in Hin; contradiction Hin.
  - vm_compute. discriminate.
  - vm_compute. left. reflexivity.
  - vm_compute. right. left. reflexivity.
  - vm_compute. intros [H | []]. discriminate H.
  - exact Hkept.
Defined.

(** ** The date of the form *)

Lemma addReminder_formats_valid_date (w : World) :
  valid_date (State.date (ui w)) = true ->
  existsb date_formatting_failed (trace w) = false ->
  existsb date_formatting_failed (trace (after addReminder w)) = false.
Proof.
  add_cases w; intros Hvalid Hold; try discriminate Hvalid.
  all: rewrite ?existsb_app, Hold; reflexivity.
Qed.

Lemma deleteReminder_formats_no_date (w : World) (id : Z) :
  existsb date_formatting_failed (trace w) = false ->
  existsb date_formatting_failed (trace (after (deleteReminder id) w))
  = false.
Proof.
  delete_cases w; intros Hold.
  all: rewrite ?existsb_app, Hold; reflexivity.
Qed.

Lemma addReminder_keeps_date (w : World) :
  State.date (ui (after addReminder w)) = State.date (ui w).
Proof. add_cases w; reflexivity. Qed.

Lemma deleteReminder_keeps_date (w : World) (id : Z) :
  State.date (ui (after (deleteReminder id) w)) = State.date (ui w).
Proof. delete_cases w; reflexivity. Qed.

(** From a valid date in the form, as long as the pickers hand over
    valid dates or nothing, every session keeps a valid date in the
    form, and [toISOString] never throws in the add flow: the screen
    cannot reach the date error of [addReminder]. Dismissing a picker
    keeps the date. *)
Theorem sessions_keep_the_date_valid (evs : list UiEvent) :
  forall s : Screen,
    valid_date (State.date (ui (world s))) = true ->
    existsb date_formatting_failed (trace (world s)) = false ->
    forallb picks_valid evs = true ->
    valid_date (State.date (ui (world (session evs s)))) = true
    /\ existsb date_formatting_failed (trace (world (session evs s)))
       = false.
Proof.
  induction evs as [|ev evs IH]; intros s Hvalid Htrace Hpicks.
  - split; assumption.
  - simpl in Hpicks. apply andb_true_iff in Hpicks.
    destruct Hpicks as [Hev Hevs].
    simpl. apply IH; [ | | exact Hevs].
    + destruct ev as [text | text | | | sel | sel | | index]; simpl;
        try exact Hvalid.
      * destruct (showDatePicker s); [|exact Hvalid].
        destruct sel as [[ms|]|]; simpl; try reflexivity;
          [discriminate Hev | exact Hvalid].
      * destruct (showTimePicker s); [|exact Hvalid].
        destruct sel as [[ms|]|]; simpl; try reflexivity;
          [discriminate Hev | exact Hvalid].
      * unfold on_world. simpl.
        rewrite addReminder_keeps_date. exact Hvalid.
      * destruct (nth_error (listed (world s)) index) as [r|];
          [|exact Hvalid].
        unfold on_world. simpl.
        rewrite deleteReminder_keeps_date. exact Hvalid.
    + destruct ev as [text | text | | | sel | sel | | index]; simpl;
        try exact Htrace.
      * destruct (showDatePicker s); exact Htrace.
      * destruct (showTimePicker s); exact Htrace.
      * apply addReminder_formats_valid_date; assumption.
      * destruct (nth_error (listed (world s)) index) as [r|];
          [|exact Htrace].
        apply deleteReminder_formats_no_date. exact Htrace.
Qed.

Lemma sessions_keep_the_date_valid_witness :
  valid_date
    (State.date
       (ui (world (session [PressChooseDate; DateChange (Some year2100);
                            PressChooseTime; TimeChange None; PressAdd]
                     (mkScreen (started []) false false)))))
  = true
  /\ State.date
       (ui (world (session [PressChooseDate; DateChange (Some year2100);
                            PressChooseTime; TimeChange None; PressAdd]
                     (mkScreen (started []) false false))))
     = year2100.
Proof.
  split; [|vm_compute; reflexivity].
  destruct (sessions_keep_the_date_valid
              [PressChooseDate; DateChange (Some year2100);
               PressChooseTime; TimeChange None; PressAdd]
              (mkScreen (started []) false false)) as [Hvalid _].
  - reflexivity.
  - reflexivity.
  - reflexivity.
  - exact Hvalid.
Defined.

(** ** Adding twice *)

(** The add flow on a started application whose host calls go through. *)
Lemma addReminder_quiet (w : World) (t : SQLite.Table) (ms : Z) :
  SQLite.reminders (db w) = Some t ->
  faults w = [] ->
  State.date (ui w) = JS.TimeValue ms ->
  SQLite.next_rowid t <= SQLite.maxRowid ->
  exists h evs,
    addReminder w
    = (Done tt,
       let all :=
         SQLite.rows t
         ++ [Row.mk (SQLite.next_rowid t) (State.title (ui w))
               (State.message (ui w)) (JS.iso_of_ms ms)] in
       {| db := {| SQLite.journal_mode := SQLite.journal_mode (db w);
                   SQLite.reminders :=
                     Some {| SQLite.rows := all;
                             SQLite.seq := SQLite.next_rowid t |} |};
          host := h;
          console := console w;
          ui := State.mk all (State.title (ui w)) (State.message (ui w))
                  (JS.TimeValue ms);
          faults := [];
          trace := trace w ++ evs |}).
Proof.
  intros Htable Hplan Hdate Hcap.
  open_world w. cbn in Htable, Hplan, Hdate. subst tb fl da.
  apply Z.leb_le in Hcap.
  unfold_app. capacity; [ | congruence ].
  rewrite <- ?app_assoc. cbn.
  eexists. eexists. reflexivity.
Qed.

Lemma next_rowid_after_insert (t : SQLite.Table) (title message date : string) :
  SQLite.next_rowid
    {| SQLite.rows :=
         SQLite.rows t ++ [Row.mk (SQLite.next_rowid t) title message date];
       SQLite.seq := SQLite.next_rowid t |}
  = SQLite.next_rowid t + 1.
Proof.
  unfold SQLite.next_rowid at 1. cbn.
  rewrite largest_rowid_snoc. cbn.
  pose proof (largest_rowid_nonneg (SQLite.rows t)).
  unfold SQLite.next_rowid. lia.
Qed.

(** The add flow does not clear the form and does not look for an equal
    record: pressing add twice in a row (table in place, room for two
    ids, host calls going through) stores two rows with the same title,
    message and date under two consecutive ids, and shows both. *)
Theorem adding_twice_stores_two_rows
    (w : World) (t : SQLite.Table) (ms : Z) :
  SQLite.reminders (db w) = Some t ->
  faults w = [] ->
  State.date (ui w) = JS.TimeValue ms ->
  SQLite.next_rowid t + 1 <= SQLite.maxRowid ->
  let w2 := after addReminder (after addReminder w) in
  let row k :=
    Row.mk k (State.title (ui w)) (State.message (ui w)) (JS.iso_of_ms ms) in
  stored w2
  = SQLite.rows t
    ++ [row (SQLite.next_rowid t); row (SQLite.next_rowid t + 1)]
  /\ listed w2 = stored w2.
Proof.
  intros Htable Hplan Hdate Hcap w2 row.
  destruct (addReminder_quiet w t ms Htable Hplan Hdate) as (h1 & evs1 & E1);
    [lia|].
  subst w2. remember (after addReminder w) as w1 eqn:Hw1.
  unfold after in Hw1. rewrite E1 in Hw1. cbn in Hw1.
  destruct (addReminder_quiet w1
              {| SQLite.rows :=
                   SQLite.rows t ++ [row (SQLite.next_rowid t)];
                 SQLite.seq := SQLite.next_rowid t |} ms)
    as (h2 & evs2 & E2).
  - rewrite Hw1. reflexivity.
  - rewrite Hw1. reflexivity.
  - rewrite Hw1. reflexivity.
  - subst row. cbv beta. rewrite next_rowid_after_insert. lia.
  - unfold after, stored, listed. rewrite E2. subst row. cbn.
    rewrite next_rowid_after_insert, <- app_assoc.
    rewrite Hw1. cbn.
    split; reflexivity.
Qed.

Lemma adding_twice_stores_two_rows_witness :
  stored (after addReminder (after addReminder (started [])))
  = [Row.mk 1 "" "" "1970-01-01T00:00:00.000Z";
     Row.mk 2 "" "" "1970-01-01T00:00:00.000Z"].
Proof.
  destruct (adding_twice_stores_two_rows (started [])
              {| SQLite.rows := []; SQLite.seq := 0 |} 0) as [Hstored _].
  - reflexivity.
  - reflexivity.
  - reflexivity.
  - vm_compute. discriminate.
  - rewrite Hstored. vm_compute. reflexivity.
Defined.

(** ** The bin of a row *)

Lemma filter_keeps_nth (l : list Row.t) :
  forall (i : nat) (r : Row.t),
    NoDup (map Row.id l) ->
    nth_error l i = Some r ->
    filter (SQLite.keeps (Row.id r)) l = firstn i l ++ skipn (S i) l.
Proof.
  induction l as [|r0 l IH]; intros i r Hnodup Hnth.
  - destruct i; discriminate Hnth.
  - simpl in Hnodup. inversion Hnodup as [|k ks Hnotin Hrest]; subst.
    destruct i as [|i]; simpl in Hnth.
    + injection Hnth as ->. simpl.
      unfold SQLite.keeps at 1. rewrite Z.eqb_refl. simpl.
      apply filter_keeps_absent. exact Hnotin.
    + simpl. unfold SQLite.keeps at 1.
      destruct (Z.eqb_spec (Row.id r0) (Row.id r)) as [E | E]; simpl.
      * exfalso. apply Hnotin. rewrite E.
        apply in_map. apply nth_error_In with i. exact Hnth.
      * f_equal. apply IH; assumption.
Qed.

(** On a screen in step with the store, with distinct ids and host calls
    going through, pressing the bin of the row at some position removes
    that row and no other from the store and from the screen; the rows
    before and after it stay, in their order. *)
Theorem bin_removes_its_row
    (s : Screen) (t : SQLite.Table) (index : nat) (r : Row.t) :
  SQLite.reminders (db (world s)) = Some t ->
  faults (world s) = [] ->
  listed (world s) = SQLite.rows t ->
  NoDup (map Row.id (SQLite.rows t)) ->
  nth_error (listed (world s)) index = Some r ->
  let s' := react (PressBin index) s in
  listed (world s')
  = firstn index (listed (world s)) ++ skipn (S index) (listed (world s))
  /\ stored (world s') = listed (world s')
  /\ (List.length (listed (world s')) + 1)%nat
     = List.length (listed (world s)).
Proof.
  intros Htable Hplan Hsync Hnodup Hnth s'. subst s'.
  unfold react. rewrite Hnth. unfold on_world. cbn [world].
  unfold after, listed, stored.
  rewrite (deleteReminder_quiet (Row.id r) (world s) t Htable Hplan). cbn.
  unfold listed in Hsync, Hnth. rewrite Hsync in *.
  rewrite (filter_keeps_nth (SQLite.rows t) index r Hnodup Hnth).
  repeat split.
  rewrite length_app, length_firstn, length_skipn.
  assert (index < List.length (SQLite.rows t))%nat
    by (apply nth_error_Some; congruence).
  lia.
Qed.

Lemma bin_removes_its_row_witness :
  listed (world (react (PressBin 0)
                   (mkScreen
                      (run [Add "Pay rent" "Due today" year2100;
                            Add "" "" (JS.TimeValue 0)] (started []))
                      false false)))
  = [Row.mk 2 "" "" "1970-01-01T00:00:00.000Z"].
Proof.
  destruct (bin_removes_its_row
              (mkScreen
                 (run [Add "Pay rent" "Due today" year2100;
                       Add "" "" (JS.TimeValue 0)] (started []))
                 false false)
              {| SQLite.rows :=
                   [Row.mk 1 "Pay rent" "Due today" "2100-01-01T00:00:00.000Z";
                    Row.mk 2 "" "" "1970-01-01T00:00:00.000Z"];
                 SQLite.seq := 2 |}
              0%nat
              (Row.mk 1 "Pay rent" "Due today" "2100-01-01T00:00:00.000Z"))
    as (Hlisted & _).
  - vm_compute. reflexivity.
  - vm_compute. reflexivity.
  - vm_compute. reflexivity.
  - vm_compute. repeat constructor; simpl; intuition discriminate.
  - vm_compute. reflexivity.
  - rewrite Hlisted. vm_compute. reflexivity.
Defined.

(** ** Screen and store in step *)

Lemma addReminder_keeps_in_step (w : World) :
  faults w = [] /\ listed w = stored w ->
  faults (after addReminder w) = []
  /\ listed (after addReminder w) = stored (after addReminder w).
Proof.
  add_cases w; intros [Hplan Hsync]; try discriminate Hplan.
  all: split; auto.
Qed.

Lemma deleteReminder_keeps_in_step (w : World) (id : Z) :
  faults w = [] /\ listed w = stored w ->
  faults (after (deleteReminder id) w) = []
  /\ listed (after (deleteReminder id) w)
     = stored (after (deleteReminder id) w).
Proof.
  delete_cases w; intros [Hplan Hsync]; try discriminate Hplan.
  all: split; auto.
Qed.

(** As long as no host call is rejected, a screen that shows the stored
    rows keeps showing the stored rows through every session: adds that
    fail for a reason of their own (an invalid date, a missing table, a
    full table) change neither side. *)
Theorem sessions_stay_in_step (evs : list UiEvent) (s : Screen) :
  faults (world s) = [] ->
  listed (world s) = stored (world s) ->
  listed (world (session evs s)) = stored (world (session evs s)).
Proof.
  intros Hplan Hsync.
  apply (session_preserves
           (fun w => faults w = [] /\ listed w = stored w)); auto.
  - intros w. apply addReminder_keeps_in_step.
  - intros w id. apply deleteReminder_keeps_in_step.
Qed.

Lemma sessions_stay_in_step_witness :
  listed (world (session [PressAdd; ChangeTitle "Pay rent"; PressAdd;
                          PressBin 0]
                   (mkScreen (started []) false false)))
  = stored (world (session [PressAdd; ChangeTitle "Pay rent"; PressAdd;
                            PressBin 0]
                     (mkScreen (started []) false false))).
Proof.
  apply (sessions_stay_in_step
           [PressAdd; ChangeTitle "Pay rent"; PressAdd; PressBin 0]
           (mkScreen (started []) false false)).
  - reflexivity.
  - reflexivity.
Defined.
